(** * Role hierarchy authorizer and account mutation transactor

    A shallow embedding of the admin layer of the Auth² service:

    - [src/core/middleware/adminAuth.ts]: the Express middlewares
      [requireRole], [canManageRole], [preventSelfModification],
      [canModifyTargetUser] and the array [requireAdminForUserModification].
      The sources hold two copies of this file.  They agree on the first
      three middlewares; only the second ([unnamed/part_001]) has
      [canModifyTargetUser] and lists it in
      [requireAdminForUserModification].
    - [src/controllers/adminController.ts]: [createUser], [updateUser],
      [deleteUser], [resetUserPassword], [changeUserRole].
    - [src/routes/admin/index.ts] (two copies, [unnamed/part_002] and
      [unnamed/part_003], which chain the same middlewares in the same
      order): the routes.

    A middleware either calls [next()] or sends a response; a controller
    sends a response.  Both run against a PostgreSQL store, so they live in a
    state-and-exception monad over the store. *)

From Stdlib Require Import ZArith QArith List String Bool Lia Permutation Sorted.
Import ListNotations.

Local Open Scope string_scope.
Local Open Scope Z_scope.

(* ================================================================== *)
(** ** JavaScript values of a JSON request body *)
(* ================================================================== *)

(** What [request.body.role] can hold once [express.json()] has parsed the
    body: an absent field reads as [undefined]; numbers are kept as exact
    rationals (a JSON body carries neither [NaN] nor an infinity); arrays
    and objects are not told apart, both are truthy and neither is an
    integer. *)
Inductive JsValue : Type :=
| JUndefined
| JNull
| JBool (b : bool)
| JNum (q : Q)
| JStr (s : string)
| JObject.

(** JavaScript's [ToBoolean]. *)
Definition truthy (v : JsValue) : bool :=
  match v with
  | JUndefined | JNull => false
  | JBool b => b
  | JNum q => negb (Qnum q =? 0)
  | JStr s => negb (s =? "")%string
  | JObject => true
  end.

(** [a || b]. *)
Definition js_or (a b : JsValue) : JsValue := if truthy a then a else b.

(** [v === undefined]. *)
Definition is_undefined (v : JsValue) : bool :=
  match v with JUndefined => true | _ => false end.

(** [Number.isInteger(v)]: a number with no fractional part; every value of
    another type is rejected without coercion. *)
Definition Number_isInteger (v : JsValue) : bool :=
  match v with
  | JNum q => (Qnum q mod Zpos (Qden q) =? 0)
  | _ => false
  end.

Definition Qltb (a b : Q) : bool :=
  (Qnum a * Zpos (Qden b) <? Qnum b * Zpos (Qden a)).

(** [v < n] and [v > n] against an integer [n].  [canManageRole] evaluates
    them behind [!Number.isInteger(v) ||], so they are reached on numbers
    only; on any other value the disjunction is already true and the answer
    given here is immaterial. *)
Definition js_lt (v : JsValue) (n : Z) : bool :=
  match v with JNum q => Qltb q (inject_Z n) | _ => false end.

Definition js_gt (v : JsValue) (n : Z) : bool :=
  match v with JNum q => Qltb (inject_Z n) q | _ => false end.

(** Modelled from the spec: the schema ([data/init.sql], which the README
    names) is not among the sources.  The README's [Account_ID] and
    [Account_Role] are read as PostgreSQL [INT] columns, four bytes wide:
    the store refuses a parameter outside that range, and the statement
    that carries it fails. *)
Definition pg_int4 (z : Z) : bool :=
  (-2147483648 <=? z) && (z <=? 2147483647).

(** The integer a number stands for, as PostgreSQL reads a parameter bound
    to an [INT] column: an integer within the column's range.  The role
    reaches the controllers as a number: [validateAdminCreateUser] and
    [validateRoleChange] end in [toInt()]. *)
Definition pg_int (v : JsValue) : option Z :=
  match v with
  | JNum q =>
      if Number_isInteger v && pg_int4 (Qnum q / Zpos (Qden q))
      then Some (Qnum q / Zpos (Qden q))
      else None
  | _ => None
  end.

(* ================================================================== *)
(** ** Requests and responses *)
(* ================================================================== *)

(** The verified token payload that [checkToken] leaves in
    [request.claims]. *)
Record Claims : Type := mkClaims {
  claims_id : Z;
  claims_role : Z
}.

(** [request.body] after the route's express-validator chain: text fields
    are strings when present, flags are booleans when present ([None] is
    [undefined]).  [role] and [account_role] stay dynamic, since
    [canManageRole] inspects them itself. *)
Record Body : Type := mkBody {
  b_firstname : option string;
  b_lastname : option string;
  b_username : option string;
  b_email : option string;
  b_password : option string;
  b_phone : option string;
  b_role : JsValue;
  b_account_role : JsValue;
  b_account_status : option string;
  b_email_verified : option bool;
  b_phone_verified : option bool
}.

Definition empty_body : Body :=
  mkBody None None None None None None JUndefined JUndefined None None None.

(** [params_id] is [parseInt(request.params.id)]; every [/users/:id] route
    runs [validateUserIdParam] first, so it is an integer.  [targetUserRole]
    is the ad-hoc field [canModifyTargetUser] attaches to the request. *)
Record Request : Type := mkRequest {
  claims : option Claims;
  params_id : Z;
  body : Body;
  targetUserRole : option Z
}.

Definition set_targetUserRole (r : Request) (role : Z) : Request :=
  mkRequest (claims r) (params_id r) (body r) (Some role).

(** A response: HTTP status and the [success] and [message] members of its
    JSON payload (the remaining members only echo data). *)
Record Response : Type := mkResponse {
  status : Z;
  success : bool;
  message : string
}.

(** [response.json(...)] without [status(...)] answers 200. *)
Definition ok_json (msg : string) : Response := mkResponse 200 true msg.
Definition fail_json (code : Z) (msg : string) : Response := mkResponse code false msg.

(* ================================================================== *)
(** ** The store *)
(* ================================================================== *)

Record Account : Type := mkAccount {
  account_id : Z;
  firstname : string;
  lastname : string;
  username : string;
  email : string;
  email_verified : bool;
  phone : option string;
  phone_verified : bool;
  account_role : Z;
  account_status : string;
  created_at : Z;
  updated_at : Z
}.

Record Credential : Type := mkCredential {
  cred_account_id : Z;
  salted_hash : string;
  salt : string
}.

(** The two tables the admin controller touches, rows in insertion order. *)
Record Db : Type := mkDb {
  accounts : list Account;
  credentials : list Credential
}.

Inductive Err : Type :=
| ConnectionError
| UniqueViolation
| NotNullViolation
| InvalidInput
| HashError.

(** The world a request runs in.
    - [db]: the committed tables;
    - [txn]: the working copy of the transaction open on the checked-out
      client, if any;
    - [seq]: the [account_id] sequence (sequences are not transactional);
    - [now]: [CURRENT_TIMESTAMP];
    - [faults]: whether each of the coming calls to the store fails, in
      order, a call past the end of the list succeeds;
    - [leased]: clients checked out of the pool. *)
Record St : Type := mkSt {
  db : Db;
  txn : option Db;
  seq : Z;
  now : Z;
  faults : list bool;
  leased : nat
}.

Definition set_db (s : St) (d : Db) : St :=
  mkSt d (txn s) (seq s) (now s) (faults s) (leased s).
Definition set_txn (s : St) (t : option Db) : St :=
  mkSt (db s) t (seq s) (now s) (faults s) (leased s).
Definition set_seq (s : St) (n : Z) : St :=
  mkSt (db s) (txn s) n (now s) (faults s) (leased s).
Definition set_faults (s : St) (f : list bool) : St :=
  mkSt (db s) (txn s) (seq s) (now s) f (leased s).
Definition set_leased (s : St) (n : nat) : St :=
  mkSt (db s) (txn s) (seq s) (now s) (faults s) n.

(* ================================================================== *)
(** ** State and exception monad *)
(* ================================================================== *)

Inductive Res (A : Type) : Type :=
| Ok (a : A)
| Throw (e : Err).
Arguments Ok {A} a.
Arguments Throw {A} e.

Definition M (A : Type) : Type := St -> Res A * St.

Definition ret {A} (a : A) : M A := fun s => (Ok a, s).
Definition throw {A} (e : Err) : M A := fun s => (Throw e, s).

Definition bind {A B} (m : M A) (k : A -> M B) : M B :=
  fun s =>
    match m s with
    | (Ok a, s') => k a s'
    | (Throw e, s') => (Throw e, s')
    end.

(** [try { m } catch (error) { h error }]. *)
Definition try_catch {A} (m : M A) (h : Err -> M A) : M A :=
  fun s =>
    match m s with
    | (Ok a, s') => (Ok a, s')
    | (Throw e, s') => h e s'
    end.

(** [try { m } finally { f }] for a block [f] that does not throw. *)
Definition finally {A} (m : M A) (f : St -> St) : M A :=
  fun s => let '(r, s') := m s in (r, f s').

Definition get : M St := fun s => (Ok s, s).
Definition modify (f : St -> St) : M unit := fun s => (Ok tt, f s).

Declare Scope monad_scope.
Delimit Scope monad_scope with monad.
Notation "x <- m ;; k" := (bind m (fun x => k))
  (at level 61, m at next level, right associativity) : monad_scope.
Notation "m ;; k" := (bind m (fun _ => k))
  (at level 61, right associativity) : monad_scope.
Local Open Scope monad_scope.

(* ================================================================== *)
(** ** PostgreSQL, as the controllers use it *)
(* ================================================================== *)

(** One call to the store: consumes the next entry of [faults] and throws
    when it is set.  A call that throws changes no table. *)
Definition round_trip : M unit :=
  fun s =>
    match faults s with
    | [] => (Ok tt, s)
    | f :: fs => ((if f then Throw ConnectionError else Ok tt), set_faults s fs)
    end.

(** The tables a statement on the checked-out client sees and writes. *)
Definition view (s : St) : Db :=
  match txn s with Some w => w | None => db s end.

Definition put_view (d : Db) (s : St) : St :=
  match txn s with
  | Some _ => set_txn s (Some d)
  | None => set_db s d
  end.

(** [pool.connect()]: a client with no transaction open. *)
Definition pool_connect : M unit :=
  round_trip ;; modify (fun s => set_leased (set_txn s None) (S (leased s))).

(** [client.release()]. *)
Definition client_release (s : St) : St := set_leased s (pred (leased s)).

(** [client.query('BEGIN')]. *)
Definition BEGIN : M unit :=
  round_trip ;;
  modify (fun s => match txn s with Some _ => s | None => set_txn s (Some (db s)) end).

(** [client.query('COMMIT')]. *)
Definition COMMIT : M unit :=
  round_trip ;; modify (fun s => set_txn (set_db s (view s)) None).

(** [client.query('ROLLBACK')]. *)
Definition ROLLBACK : M unit :=
  round_trip ;; modify (fun s => set_txn s None).

(** A statement sent through [pool.query]: it runs on a connection of its
    own, in a transaction of its own, against the committed tables. *)
Definition pool_read {A} (q : Db -> A) : M A :=
  round_trip ;; s <- get ;; ret (q (db s)).

(** A statement sent through the checked-out client. *)
Definition client_read {A} (q : Db -> A) : M A :=
  round_trip ;; s <- get ;; ret (q (view s)).

(** An integer bound to an [INT] column or compared with one: the store
    refuses a value outside the column's range. *)
Definition int_param (z : Z) : M unit :=
  if pg_int4 z then ret tt else throw InvalidInput.

(** The same statements with [WHERE account_id = $n]: the statement is
    sent, and fails when the identifier is out of range.  Every read by
    identifier below ([select_account_role], [select_account_id],
    [select_account]) goes through one of the two. *)
Definition pool_read_by_id {A} (id : Z) (q : Db -> A) : M A :=
  round_trip ;; int_param id ;; s <- get ;; ret (q (db s)).

Definition client_read_by_id {A} (id : Z) (q : Db -> A) : M A :=
  round_trip ;; int_param id ;; s <- get ;; ret (q (view s)).

(** [col = $n]; a parameter that is [undefined] is sent as [NULL], and
    [col = NULL] holds of no row. *)
Definition sql_eq (col : string) (param : option string) : bool :=
  match param with
  | Some p => (col =? p)%string
  | None => false
  end.

Definition has_id (id : Z) (a : Account) : bool := account_id a =? id.

(** [SELECT account_role FROM account WHERE account_id = $1]: the rows the
    statement yields once the store has taken the identifier (see
    [pool_read_by_id]). *)
Definition select_account_role (id : Z) (d : Db) : list Z :=
  map account_role (filter (has_id id) (accounts d)).

(** [SELECT account_id FROM account WHERE account_id = $1]: the rows the
    statement yields once the store has taken the identifier (see
    [client_read_by_id]). *)
Definition select_account_id (id : Z) (d : Db) : list Z :=
  map account_id (filter (has_id id) (accounts d)).

(** [SELECT account_id FROM account WHERE username = $1 OR email = $2] *)
Definition select_existing (u e : option string) (d : Db) : list Z :=
  map account_id
      (filter (fun a => sql_eq (username a) u || sql_eq (email a) e) (accounts d)).

Definition same_phone (p q : option string) : bool :=
  match p, q with
  | Some x, Some y => (x =? y)%string
  | _, _ => false
  end.

(** Modelled from the spec: the schema ([data/init.sql]) is not among the
    sources.  The README and the data model give the account table a
    primary key [account_id] and unique [username], [email] and [phone]
    (when present).  [collides a rows]: inserting [a] next to [rows] breaks
    one of them. *)
Definition collides (a : Account) (rows : list Account) : bool :=
  existsb (fun b => (account_id b =? account_id a)
                    || (username b =? username a)%string
                    || (email b =? email a)%string
                    || same_phone (phone b) (phone a)) rows.

(** [INSERT INTO account (firstname, lastname, username, email, phone,
    account_role, account_status, email_verified, phone_verified)
    VALUES ($1, $2, $3, $4, $5, $6, 'active', false, false) RETURNING ...]
    on the client.  The identifier comes from the sequence, which advances
    whether or not the row is kept and must fit the column; both timestamps
    default to the current time; a missing name, username, email or role
    is refused. *)
Definition insert_account (fn ln un em ph : option string) (role : JsValue)
  : M Account :=
  round_trip ;;
  s <- get ;;
  modify (fun s => set_seq s (seq s + 1)) ;;
  int_param (seq s) ;;
  match fn, ln, un, em with
  | Some fn, Some ln, Some un, Some em =>
      match pg_int role with
      | Some r =>
          let a := mkAccount (seq s) fn ln un em false ph false r "active"
                             (now s) (now s) in
          if collides a (accounts (view s)) then throw UniqueViolation
          else
            modify (put_view (mkDb (accounts (view s) ++ [a])
                                   (credentials (view s)))) ;;
            ret a
      | None => throw InvalidInput
      end
  | _, _, _, _ => throw NotNullViolation
  end.

(** [INSERT INTO account_credential (account_id, salted_hash, salt)
    VALUES ($1, $2, $3)] on the client. *)
Definition insert_credential (id : Z) (hash slt : string) : M unit :=
  round_trip ;;
  modify (fun s => put_view (mkDb (accounts (view s))
                                  (credentials (view s) ++ [mkCredential id hash slt])) s).

(** [UPDATE account_credential SET salted_hash = $1, salt = $2
    WHERE account_id = $3] on the client. *)
Definition update_credential (hash slt : string) (id : Z) : M unit :=
  round_trip ;;
  int_param id ;;
  modify (fun s =>
    put_view (mkDb (accounts (view s))
                   (map (fun c => if cred_account_id c =? id
                                  then mkCredential (cred_account_id c) hash slt
                                  else c)
                        (credentials (view s)))) s).

(** Whether rewriting [old] into [new] gives it a username, email or phone
    that one of the [others] already holds.  A column the statement leaves
    as it was is not checked again. *)
Definition key_clash (old new : Account) (others : list Account) : bool :=
  (negb (username new =? username old)%string
   && existsb (fun b => (username b =? username new)%string) others)
  || (negb (email new =? email old)%string
      && existsb (fun b => (email b =? email new)%string) others)
  || (negb (same_phone (phone new) (phone old))
      && existsb (fun b => same_phone (phone b) (phone new)) others).

(** [UPDATE account SET ... WHERE account_id = $n RETURNING ...] through
    [pool.query]; [f] is the [SET] list, given [CURRENT_TIMESTAMP].  The
    result is the list of rewritten rows.  The statement fails when the
    identifier is out of the key's range. *)
Definition update_account (id : Z) (f : Z -> Account -> Account)
  : M (list Account) :=
  round_trip ;;
  int_param id ;;
  s <- get ;;
  let rows := accounts (db s) in
  let others := filter (fun a => negb (has_id id a)) rows in
  if existsb (fun a => key_clash a (f (now s) a) others) (filter (has_id id) rows)
  then throw UniqueViolation
  else
    modify (fun s' =>
      set_db s' (mkDb (map (fun a => if has_id id a then f (now s) a else a) rows)
                      (credentials (db s)))) ;;
    ret (map (f (now s)) (filter (has_id id) rows)).

(* ================================================================== *)
(** ** Express: middlewares, controllers and chains *)
(* ================================================================== *)

(** What a middleware does with a request: hand it on, or answer. *)
Inductive Step : Type :=
| Next (request : Request)
| Respond (response : Response).

Definition Middleware : Type := Request -> M Step.
Definition Controller : Type := Request -> M Response.

(** [router.METHOD(path, mw1, ..., mwn, controller)]: each middleware runs
    on the request the one before it handed on; the first response ends
    the chain. *)
Fixpoint run_chain (mws : list Middleware) (h : Controller) (request : Request)
  : M Response :=
  match mws with
  | [] => h request
  | mw :: rest =>
      step <- mw request ;;
      match step with
      | Next request' => run_chain rest h request'
      | Respond response => ret response
      end
  end.

(** The same for a list of middlewares alone. *)
Fixpoint run_middlewares (mws : list Middleware) (request : Request) : M Step :=
  match mws with
  | [] => ret (Next request)
  | mw :: rest =>
      step <- mw request ;;
      match step with
      | Next request' => run_middlewares rest request'
      | Respond response => ret (Respond response)
      end
  end.

(* ================================================================== *)
(** ** [adminAuth.ts] *)
(* ================================================================== *)

(** Modelled from the spec: the [UserRole] enum of [@models] is not among
    the sources; the README and the glossary give 1 = User, 2 = Moderator,
    3 = Admin, 4 = SuperAdmin, 5 = Owner. *)
Module ROLES.
Definition USER : Z := 1.
Definition MODERATOR : Z := 2.
Definition ADMIN : Z := 3.
Definition SUPER_ADMIN : Z := 4.
Definition OWNER : Z := 5.
End ROLES.

Definition unauthenticated : Response := fail_json 401 "Authentication required".

(** The copy at [src/core/middleware/adminAuth.ts]. *)
Module AdminAuth.

Definition requireRole (minRole : Z) : Middleware := fun request =>
  match claims request with
  | None => ret (Respond unauthenticated)
  | Some c =>
      if claims_role c <? minRole
      then ret (Respond (fail_json 403 "Insufficient permissions"))
      else ret (Next request)
  end.

Definition canManageRole : Middleware := fun request =>
  match claims request with
  | None => ret (Respond unauthenticated)
  | Some c =>
      let targetRole := js_or (b_role (body request)) (b_account_role (body request)) in
      if is_undefined targetRole then ret (Next request)
      else if negb (Number_isInteger targetRole)
              || js_lt targetRole 1 || js_gt targetRole 5
      then ret (Respond (fail_json 400
             "Invalid role value. Role must be an integer between 1 and 5"))
      else if js_gt targetRole (claims_role c)
      then ret (Respond (fail_json 403 "Cannot assign role higher than your own"))
      else ret (Next request)
  end.

Definition preventSelfModification : Middleware := fun request =>
  match claims request with
  | None => ret (Respond unauthenticated)
  | Some c =>
      let targetUserId := params_id request in
      if targetUserId =? claims_id c
      then ret (Respond (fail_json 403
             "Cannot modify your own account through admin endpoints. Use the user profile endpoints to modify your own account"))
      else ret (Next request)
  end.

Definition requireAdminForUserModification : list Middleware :=
  [ requireRole ROLES.MODERATOR;
    preventSelfModification;
    canManageRole ].

End AdminAuth.

(** The second copy of [adminAuth.ts] (in the sources as
    [unnamed/part_001]), which also reads the target's stored role.  Its
    first three middlewares are those of the first copy. *)
Module AdminAuthTarget.

Definition requireRole := AdminAuth.requireRole.
Definition canManageRole := AdminAuth.canManageRole.
Definition preventSelfModification := AdminAuth.preventSelfModification.

Definition canModifyTargetUser : Middleware := fun request =>
  match claims request with
  | None => ret (Respond unauthenticated)
  | Some c =>
      let targetUserId := params_id request in
      try_catch
        (rows <- pool_read_by_id targetUserId (select_account_role targetUserId) ;;
         match rows with
         | [] => ret (Next request)
         | targetUserRole :: _ =>
             if targetUserRole >? claims_role c
             then ret (Respond (fail_json 403
                    "Cannot modify user with higher role than yours"))
             else ret (Next (set_targetUserRole request targetUserRole))
         end)
        (fun _ => ret (Respond (fail_json 500 "Failed to verify permissions")))
  end.

Definition requireAdminForUserModification : list Middleware :=
  [ requireRole ROLES.MODERATOR;
    preventSelfModification;
    canModifyTargetUser;
    canManageRole ].

End AdminAuthTarget.

(* ================================================================== *)
(** ** [adminController.ts] *)
(* ================================================================== *)

(** Column assignments of the [SET] lists. *)
Definition set_firstname (v : string) (a : Account) : Account :=
  mkAccount (account_id a) v (lastname a) (username a) (email a)
            (email_verified a) (phone a) (phone_verified a) (account_role a)
            (account_status a) (created_at a) (updated_at a).
Definition set_lastname (v : string) (a : Account) : Account :=
  mkAccount (account_id a) (firstname a) v (username a) (email a)
            (email_verified a) (phone a) (phone_verified a) (account_role a)
            (account_status a) (created_at a) (updated_at a).
Definition set_username (v : string) (a : Account) : Account :=
  mkAccount (account_id a) (firstname a) (lastname a) v (email a)
            (email_verified a) (phone a) (phone_verified a) (account_role a)
            (account_status a) (created_at a) (updated_at a).
Definition set_email (v : string) (a : Account) : Account :=
  mkAccount (account_id a) (firstname a) (lastname a) (username a) v
            (email_verified a) (phone a) (phone_verified a) (account_role a)
            (account_status a) (created_at a) (updated_at a).
Definition set_email_verified (v : bool) (a : Account) : Account :=
  mkAccount (account_id a) (firstname a) (lastname a) (username a) (email a)
            v (phone a) (phone_verified a) (account_role a)
            (account_status a) (created_at a) (updated_at a).
Definition set_phone (v : string) (a : Account) : Account :=
  mkAccount (account_id a) (firstname a) (lastname a) (username a) (email a)
            (email_verified a) (Some v) (phone_verified a) (account_role a)
            (account_status a) (created_at a) (updated_at a).
Definition set_phone_verified (v : bool) (a : Account) : Account :=
  mkAccount (account_id a) (firstname a) (lastname a) (username a) (email a)
            (email_verified a) (phone a) v (account_role a)
            (account_status a) (created_at a) (updated_at a).
Definition set_account_role (v : Z) (a : Account) : Account :=
  mkAccount (account_id a) (firstname a) (lastname a) (username a) (email a)
            (email_verified a) (phone a) (phone_verified a) v
            (account_status a) (created_at a) (updated_at a).
Definition set_account_status (v : string) (a : Account) : Account :=
  mkAccount (account_id a) (firstname a) (lastname a) (username a) (email a)
            (email_verified a) (phone a) (phone_verified a) (account_role a)
            v (created_at a) (updated_at a).
Definition set_updated_at (v : Z) (a : Account) : Account :=
  mkAccount (account_id a) (firstname a) (lastname a) (username a) (email a)
            (email_verified a) (phone a) (phone_verified a) (account_role a)
            (account_status a) (created_at a) v.

Section AdminController.

(** [generateSaltedHash] of [@utilities] is not among the sources: it
    draws a salt and returns it with the digest, or throws ([None]).  The
    variable stands for what it answers in the run at hand. *)
Variable generateSaltedHash : option string -> option (string * string).

Definition salted (password : option string) : M (string * string) :=
  match generateSaltedHash password with
  | Some sh => ret sh
  | None => throw HashError
  end.

(** [phone || null] *)
Definition phone_or_null (p : option string) : option string :=
  match p with
  | Some s => if (s =? "")%string then None else Some s
  | None => None
  end.

(** [POST /admin/users/create] *)
Definition createUser : Controller := fun request =>
  pool_connect ;;
  finally
    (try_catch
       (let b := body request in
        BEGIN ;;
        existingUser <- client_read (select_existing (b_username b) (b_email b)) ;;
        if (0 <? List.length existingUser)%nat
        then
          ROLLBACK ;;
          ret (fail_json 409 "Username or email already exists")
        else
          newAccount <- insert_account (b_firstname b) (b_lastname b)
                          (b_username b) (b_email b)
                          (phone_or_null (b_phone b)) (b_role b) ;;
          sh <- salted (b_password b) ;;
          insert_credential (account_id newAccount) (snd sh) (fst sh) ;;
          COMMIT ;;
          ret (mkResponse 201 true "User created successfully"))
       (fun _ =>
          ROLLBACK ;;
          ret (fail_json 500 "Failed to create user")))
    client_release.

(** The [updates] array of [updateUser], one assignment per field of the
    body that is not [undefined], in the order the source pushes them. *)
Definition push {A} (o : option A) (f : A -> Account -> Account)
  : list (Account -> Account) :=
  match o with
  | Some v => [f v]
  | None => []
  end.

Definition updates_of (b : Body) : list (Account -> Account) :=
  push (b_firstname b) set_firstname
  ++ push (b_lastname b) set_lastname
  ++ push (b_username b) set_username
  ++ push (b_email b) set_email
  ++ push (b_phone b) set_phone
  ++ push (b_account_status b) set_account_status
  ++ push (b_email_verified b) set_email_verified
  ++ push (b_phone_verified b) set_phone_verified.

Definition apply_updates (us : list (Account -> Account)) (a : Account) : Account :=
  fold_left (fun acc u => u acc) us a.

(** [PUT /admin/users/:id] *)
Definition updateUser : Controller := fun request =>
  try_catch
    (let userId := params_id request in
     let updates := updates_of (body request) in
     if (List.length updates =? 0)%nat
     then ret (fail_json 400 "No fields to update")
     else
       rows <- update_account userId
                 (fun ts a => set_updated_at ts (apply_updates updates a)) ;;
       if (List.length rows =? 0)%nat
       then ret (fail_json 404 "User not found")
       else ret (ok_json "User updated successfully"))
    (fun _ => ret (fail_json 500 "Failed to update user")).

(** [SET account_status = 'deleted', updated_at = CURRENT_TIMESTAMP] *)
Definition mark_deleted (ts : Z) (a : Account) : Account :=
  set_updated_at ts (set_account_status "deleted" a).

(** [DELETE /admin/users/:id] *)
Definition deleteUser : Controller := fun request =>
  try_catch
    (let userId := params_id request in
     rows <- update_account userId mark_deleted ;;
     if (List.length rows =? 0)%nat
     then ret (fail_json 404 "User not found")
     else ret (ok_json "User deleted successfully"))
    (fun _ => ret (fail_json 500 "Failed to delete user")).

(** [PUT /admin/users/:id/password] *)
Definition resetUserPassword : Controller := fun request =>
  pool_connect ;;
  finally
    (try_catch
       (let userId := params_id request in
        BEGIN ;;
        userCheck <- client_read_by_id userId (select_account_id userId) ;;
        if (List.length userCheck =? 0)%nat
        then
          ROLLBACK ;;
          ret (fail_json 404 "User not found")
        else
          sh <- salted (b_password (body request)) ;;
          update_credential (snd sh) (fst sh) userId ;;
          COMMIT ;;
          ret (ok_json "Password reset successfully"))
       (fun _ =>
          ROLLBACK ;;
          ret (fail_json 500 "Failed to reset password")))
    client_release.

(** [PUT /admin/users/:id/role].  The new role is bound to an [INT]
    column; a value that is no integer makes the statement fail. *)
Definition changeUserRole : Controller := fun request =>
  try_catch
    (let userId := params_id request in
     match pg_int (b_role (body request)) with
     | Some role =>
         rows <- update_account userId
                   (fun ts a => set_updated_at ts (set_account_role role a)) ;;
         if (List.length rows =? 0)%nat
         then ret (fail_json 404 "User not found")
         else ret (ok_json "Role updated successfully")
     | None => round_trip ;; throw InvalidInput
     end)
    (fun _ => ret (fail_json 500 "Failed to change role")).

(* ---------------------------------------------------------------- *)
(** *** [routes/admin/index.ts] *)
(* ---------------------------------------------------------------- *)

(** The mutating routes.  The express-validator chains that stand before
    the middlewares below are taken as passed (see [Body]).  The routes
    file imports [requireAdminForUserModification] from [adminAuth.ts];
    the section variable stands for the copy in force. *)
Variable requireAdminForUserModification : list Middleware.

Definition post_users_create : Controller :=
  run_chain [AdminAuth.requireRole ROLES.MODERATOR; AdminAuth.canManageRole]
            createUser.

Definition put_users_id : Controller :=
  run_chain requireAdminForUserModification updateUser.

Definition delete_users_id : Controller :=
  run_chain requireAdminForUserModification deleteUser.

Definition put_users_id_password : Controller :=
  run_chain (AdminAuth.requireRole ROLES.ADMIN :: requireAdminForUserModification)
            resetUserPassword.

Definition put_users_id_role : Controller :=
  run_chain requireAdminForUserModification changeUserRole.

End AdminController.

(* ================================================================== *)
(** ** [adminController.ts]: the controllers that only read *)
(* ================================================================== *)

(** [SELECT ... FROM account WHERE account_id = $1]: the rows the statement
    yields once the store has taken the identifier (see
    [pool_read_by_id]). *)
Definition select_account (id : Z) (d : Db) : list Account :=
  filter (has_id id) (accounts d).

(** [GET /admin/users/:id].  The success payload has no [message] member
    (it carries the formatted row); the model leaves it empty. *)
Definition getUserById : Controller := fun request =>
  try_catch
    (let userId := params_id request in
     rows <- pool_read_by_id userId (select_account userId) ;;
     if (List.length rows =? 0)%nat
     then ret (fail_json 404 "User not found")
     else ret (mkResponse 200 true ""))
    (fun _ => ret (fail_json 500 "Failed to retrieve user")).

(** [request.query] as [listUsers] reads it.  [q_page], [q_limit] and
    [q_role] hold what [parseInt] makes of the parameter: an integer, or
    [None] for [NaN] (a parameter that is absent or starts with no digit).
    For [q_role] an empty parameter is [None] too, since the source parses
    it only when it is truthy.  Integers are exact, and the store takes
    them as they are: a role filter or an offset too large for the store's
    integer types, which would make the statement fail, is left out of
    the model of [listUsers]. *)
Record Query : Type := mkQuery {
  q_page : option Z;
  q_limit : option Z;
  q_role : option Z;
  q_status : option string;
  q_verified : option string
}.

(** [parseInt(x) || d]: [NaN] and [0] are falsy. *)
Definition parsed_or (x : option Z) (d : Z) : Z :=
  match x with
  | Some v => if v =? 0 then d else v
  | None => d
  end.

(** [Math.max(parseInt(query.page) || 1, 1)] *)
Definition page_of (query : Query) : Z :=
  Z.max (parsed_or (q_page query) 1) 1.

(** [Math.min(Math.max(parseInt(query.limit) || 50, 1), 100)] *)
Definition limit_of (query : Query) : Z :=
  Z.min (Z.max (parsed_or (q_limit query) 50) 1) 100.

(** [(page - 1) * limit] *)
Definition offset_of (query : Query) : Z :=
  (page_of query - 1) * limit_of query.

(** The [WHERE] clause [listUsers] builds: a role that parsed, a status
    that is truthy, and [verified] when it is ['email'] or ['phone']. *)
Definition where_clause (query : Query) (a : Account) : bool :=
  match q_role query with
  | Some r => account_role a =? r
  | None => true
  end
  && match q_status query with
     | Some st => if (st =? "")%string then true
                  else (account_status a =? st)%string
     | None => true
     end
  && match q_verified query with
     | Some v => if (v =? "email")%string then email_verified a
                 else if (v =? "phone")%string then phone_verified a
                 else true
     | None => true
     end.

(** [ORDER BY created_at DESC], as an insertion sort.  SQL leaves the order
    of rows with equal [created_at] open; the sort fixes one, so what is
    said of the order of a page holds of the store only for rows whose
    [created_at] differ (see [newest_first_unique]). *)
Fixpoint insert_desc (a : Account) (l : list Account) : list Account :=
  match l with
  | [] => [a]
  | b :: l' =>
      if created_at b <? created_at a
      then a :: b :: l'
      else b :: insert_desc a l'
  end.

Definition order_by_created_at_desc (l : list Account) : list Account :=
  fold_right insert_desc [] l.

(** [SELECT COUNT( * ) FROM account WHERE ...] *)
Definition count_users (query : Query) (d : Db) : Z :=
  Z.of_nat (List.length (filter (where_clause query) (accounts d))).

(** [SELECT ... FROM account WHERE ... ORDER BY created_at DESC
    LIMIT $n OFFSET $m] *)
Definition select_users (query : Query) (limit offset : Z) (d : Db) : list Account :=
  firstn (Z.to_nat limit)
         (skipn (Z.to_nat offset)
                (order_by_created_at_desc (filter (where_clause query) (accounts d)))).

(** The success payload of [listUsers]. *)
Record UsersList : Type := mkUsersList {
  ul_count : Z;
  ul_page : Z;
  ul_limit : Z;
  ul_data : list Account
}.

(** [GET /admin/users]: the list (answered 200), or the 500 response. *)
Definition listUsers (query : Query) : M (UsersList + Response) :=
  try_catch
    (let page := page_of query in
     let limit := limit_of query in
     let offset := (page - 1) * limit in
     totalCount <- pool_read (count_users query) ;;
     users <- pool_read (select_users query limit offset) ;;
     ret (inl (mkUsersList totalCount page limit users)))
    (fun _ => ret (inr (fail_json 500 "Failed to retrieve users"))).

(* ================================================================== *)
(** ** A running example *)
(* ================================================================== *)

(** Three accounts: a moderator, an owner and a second moderator. *)
Module Example.

Definition alice : Account :=
  mkAccount 1 "Alice" "Ames" "alice" "alice@example.org" true None false
            2 "active" 10 10.
Definition olga : Account :=
  mkAccount 2 "Olga" "Owens" "olga" "olga@example.org" true
            (Some "2535550100") false 5 "active" 11 11.
Definition carol : Account :=
  mkAccount 3 "Carol" "Cole" "carol" "carol@example.org" true None false
            2 "active" 12 12.

Definition store : Db :=
  mkDb [alice; olga; carol]
       [mkCredential 1 "h1" "s1"; mkCredential 2 "h2" "s2"; mkCredential 3 "h3" "s3"].

Definition world : St := mkSt store None 4 100 [] 0.

(** Alice's token. *)
Definition as_alice : Claims := mkClaims 1 2.

Definition with_role (v : JsValue) : Body :=
  mkBody None None None None None None v JUndefined None None None.

Definition with_username (u : string) : Body :=
  mkBody None None (Some u) None None None JUndefined JUndefined None None None.

Definition on_target (id : Z) (b : Body) : Request :=
  mkRequest (Some as_alice) id b None.

Definition hasher (p : option string) : option (string * string) :=
  match p with
  | Some s => Some ("salt", "digest-of-" ++ s)
  | None => None
  end.

End Example.

Module Conflict.

(** A new user who asks for Alice's username. *)
Definition second_alice : Body :=
  mkBody (Some "Alicia") (Some "Ames") (Some "alice")
         (Some "alicia@example.org") (Some "correct horse") None
         (JNum (inject_Z 1)) JUndefined None None None.

End Conflict.

(** More requests for the running example. *)
Module Samples.

(** A new user nobody clashes with. *)
Definition dana (role : Z) : Body :=
  mkBody (Some "Dana") (Some "Diaz") (Some "dana") (Some "dana@example.org")
         (Some "correct horse") (Some "2535550199") (JNum (inject_Z role)) JUndefined
         None None None.

(** An administrator's token (account 7, role 3). *)
Definition as_admin : Claims := mkClaims 7 3.

Definition admin_on (id : Z) (b : Body) : Request :=
  mkRequest (Some as_admin) id b None.

Definition anonymous (id : Z) (b : Body) : Request :=
  mkRequest None id b None.

Definition with_account_role (v : JsValue) : Body :=
  mkBody None None None None None None JUndefined v None None None.

(** The world with the store down for the next call. *)
Definition store_down : St := mkSt Example.store None 4 100 [true] 0.

End Samples.

(* ================================================================== *)
(** ** Vocabulary of the statements *)
(* ================================================================== *)

(** The next call to the store succeeds. *)
Definition answers (s : St) : Prop := hd false (faults s) = false.

(** The world once a call has been made. *)
Definition after_call (s : St) : St := set_faults s (tl (faults s)).

(** The account a request aims at: the row the store has for its
    identifier, an identifier the key column can hold. *)
Definition target (request : Request) (s : St) : option Account :=
  if pg_int4 (params_id request)
  then find (has_id (params_id request)) (accounts (db s))
  else None.

(** The rows of the table once [f] has rewritten those with identifier [id]. *)
Definition rewritten (id : Z) (f : Account -> Account) (rows : list Account)
  : list Account :=
  map (fun a => if has_id id a then f a else a) rows.

(** The response a step carries, if it is one. *)
Definition answer_of (r : Res Step) : option Response :=
  match r with
  | Ok (Respond response) => Some response
  | _ => None
  end.

(** A request with another body, and a body with other role fields. *)
Definition with_body (r : Request) (b : Body) : Request :=
  mkRequest (claims r) (params_id r) b (targetUserRole r).

Definition with_roles (b : Body) (role account_role : JsValue) : Body :=
  mkBody (b_firstname b) (b_lastname b) (b_username b) (b_email b)
         (b_password b) (b_phone b) role account_role (b_account_status b)
         (b_email_verified b) (b_phone_verified b).

(** What a column holds after [updateUser]: the body's value when it has
    one, the stored value otherwise. *)
Definition or_kept {A} (o : option A) (kept : A) : A :=
  match o with
  | Some v => v
  | None => kept
  end.

(** The body [{ account_status: st }]. *)
Definition only_status (st : string) : Body :=
  mkBody None None None None None None JUndefined JUndefined (Some st) None None.

(** Newest first. *)
Definition newest_first (x y : Account) : Prop := created_at y <= created_at x.

(** Runs a controller symbolically: splits on whether the next call to the
    store fails, on the tests the controller makes and on the optional
    values it inspects. *)
Ltac run_controller :=
  repeat (cbv beta iota zeta delta
               [set_db set_txn set_seq set_faults set_leased put_view view
                client_release db txn seq now faults leased fst snd status
                body params_id b_password b_username b_email b_firstname
                b_lastname b_phone b_role fail_json ok_json];
          cbn;
          match goal with
          | |- context [match ?f with [] => _ | _ :: _ => _ end] =>
              is_var f; destruct f as [|[] ?]
          | |- context [if ?b then _ else _] => destruct b eqn:?
          | |- context [match ?o with Some _ => _ | None => _ end] =>
              destruct o eqn:?
          end).

(* ================================================================== *)
(** ** Facts about the JavaScript operators *)
(* ================================================================== *)

Lemma truthy_int (z : Z) : truthy (JNum (inject_Z z)) = negb (z =? 0).
Proof. reflexivity. Qed.

Lemma Number_isInteger_int (z : Z) : Number_isInteger (JNum (inject_Z z)) = true.
Proof. cbn. rewrite Z.mod_1_r. reflexivity. Qed.

Lemma js_lt_int (z n : Z) : js_lt (JNum (inject_Z z)) n = (z <? n).
Proof. unfold js_lt, Qltb. cbn. rewrite !Z.mul_1_r. reflexivity. Qed.

Lemma js_gt_int (z n : Z) : js_gt (JNum (inject_Z z)) n = (n <? z).
Proof. unfold js_gt, Qltb. cbn. rewrite !Z.mul_1_r. reflexivity. Qed.

Lemma js_or_falsy (a b : JsValue) : truthy a = false -> js_or a b = b.
Proof. unfold js_or. intros ->. reflexivity. Qed.

Lemma js_or_truthy (a b : JsValue) : truthy a = true -> js_or a b = a.
Proof. unfold js_or. intros ->. reflexivity. Qed.

(** A truthy value is never [undefined]. *)
Lemma truthy_defined (v : JsValue) : truthy v = true -> is_undefined v = false.
Proof. destruct v; cbn; congruence. Qed.

(* ================================================================== *)
(** ** [canManageRole] *)
(* ================================================================== *)

(** What [canManageRole] answers when the body's [role] is a non-zero
    integer [z]. *)
Lemma canManageRole_int (request : Request) (c : Claims) (z : Z) (s : St) :
  claims request = Some c ->
  b_role (body request) = JNum (inject_Z z) ->
  z <> 0 ->
  AdminAuth.canManageRole request s =
  (Ok (if (z <? 1) || (5 <? z)
       then Respond (fail_json 400
              "Invalid role value. Role must be an integer between 1 and 5")
       else if claims_role c <? z
            then Respond (fail_json 403 "Cannot assign role higher than your own")
            else Next request), s).
Proof.
  intros Hc Hr Hz. unfold AdminAuth.canManageRole. rewrite Hc, Hr.
  assert (Ht : truthy (JNum (inject_Z z)) = true).
  { rewrite truthy_int. apply negb_true_iff, Z.eqb_neq, Hz. }
  rewrite (js_or_truthy _ _ Ht), (truthy_defined _ Ht).
  rewrite Number_isInteger_int, js_lt_int, !js_gt_int. cbn [negb orb].
  destruct ((z <? 1) || (5 <? z)); [reflexivity|].
  destruct (claims_role c <? z); reflexivity.
Qed.

(** X23: a truthy [role] that is no integer, or lies outside 1..5, is
    answered with 400 whatever the caller's role. *)
Lemma canManageRole_rejects_truthy_invalid
      (request : Request) (c : Claims) (s : St) :
  claims request = Some c ->
  truthy (b_role (body request)) = true ->
  Number_isInteger (b_role (body request)) = false
  \/ js_lt (b_role (body request)) 1 = true
  \/ js_gt (b_role (body request)) 5 = true ->
  AdminAuth.canManageRole request s =
  (Ok (Respond (fail_json 400
         "Invalid role value. Role must be an integer between 1 and 5")), s).
Proof.
  intros Hc Ht Hbad. unfold AdminAuth.canManageRole. rewrite Hc.
  rewrite (js_or_truthy _ _ Ht), (truthy_defined _ Ht).
  replace (negb (Number_isInteger (b_role (body request)))
           || js_lt (b_role (body request)) 1
           || js_gt (b_role (body request)) 5) with true; [reflexivity|].
  symmetry. destruct Hbad as [H | [H | H]]; rewrite H; cbn;
    rewrite ?orb_true_r; reflexivity.
Qed.

(** C3: for an actor of role [r1] and a body role [r2], both integers in
    1..5, [canManageRole] hands the request on exactly when [r2 <= r1], and
    answers 403 Forbidden when [r2 > r1]. *)
Theorem canManageRole_allows_iff_le
        (r1 r2 : Z) (request : Request) (c : Claims) (s : St) :
  1 <= r1 <= 5 ->
  1 <= r2 <= 5 ->
  claims request = Some c ->
  claims_role c = r1 ->
  b_role (body request) = JNum (inject_Z r2) ->
  (AdminAuth.canManageRole request s = (Ok (Next request), s) <-> r2 <= r1)
  /\ (r2 > r1 ->
      AdminAuth.canManageRole request s =
      (Ok (Respond (fail_json 403 "Cannot assign role higher than your own")), s)).
Proof.
  intros H1 H2 Hc Hr Hb.
  rewrite (canManageRole_int request c r2 s Hc Hb) by lia.
  replace ((r2 <? 1) || (5 <? r2)) with false
    by (symmetry; apply orb_false_iff; split; apply Z.ltb_ge; lia).
  rewrite Hr. destruct (Z.ltb_spec r1 r2) as [Hlt | Hle].
  - split; [split; [discriminate | lia] | reflexivity].
  - split; [split; [lia | reflexivity] | lia].
Qed.

Lemma canManageRole_allows_iff_le_witness :
  (AdminAuth.canManageRole
     (Example.on_target 3 (Example.with_role (JNum (inject_Z 2)))) Example.world
   = (Ok (Next (Example.on_target 3 (Example.with_role (JNum (inject_Z 2))))),
      Example.world)
   <-> 2 <= 2)
  /\ (2 > 2 ->
      AdminAuth.canManageRole
        (Example.on_target 3 (Example.with_role (JNum (inject_Z 2)))) Example.world
      = (Ok (Respond (fail_json 403 "Cannot assign role higher than your own")),
         Example.world)).
Proof.
  apply (canManageRole_allows_iff_le 2 2 _ Example.as_alice);
    first [lia | reflexivity].
Defined.

(** C9: when the body's [role] is absent or falsy ([0], the empty string,
    [null], [false]) and [account_role] is absent, [canManageRole] checks
    neither range nor hierarchy and hands the request on, whatever the
    actor's role. *)
Theorem canManageRole_skips_falsy_role (request : Request) (c : Claims) (s : St) :
  claims request = Some c ->
  truthy (b_role (body request)) = false ->
  b_account_role (body request) = JUndefined ->
  AdminAuth.canManageRole request s = (Ok (Next request), s).
Proof.
  intros Hc Hf Ha. unfold AdminAuth.canManageRole.
  rewrite Hc, (js_or_falsy _ _ Hf), Ha. reflexivity.
Qed.

Lemma canManageRole_skips_falsy_role_witness :
  truthy (JStr "") = false
  /\ AdminAuth.canManageRole (Example.on_target 3 (Example.with_role (JStr "")))
                             Example.world
     = (Ok (Next (Example.on_target 3 (Example.with_role (JStr "")))), Example.world).
Proof.
  split; [reflexivity|].
  apply (canManageRole_skips_falsy_role _ Example.as_alice); reflexivity.
Defined.

(** C5: a body role of [0] is outside 1..5, yet [canManageRole] does not
    answer 400: [0] is falsy, [body.role || body.account_role] is
    [undefined], and the request is handed on. *)
Theorem canManageRole_zero_role_is_not_rejected :
  AdminAuth.canManageRole (Example.on_target 3 (Example.with_role (JNum 0)))
                          Example.world
  = (Ok (Next (Example.on_target 3 (Example.with_role (JNum 0)))), Example.world).
Proof. reflexivity. Qed.

(* ================================================================== *)
(** ** Calls to the store *)
(* ================================================================== *)

Lemma round_trip_ok (s : St) :
  answers s -> round_trip s = (Ok tt, after_call s).
Proof.
  unfold answers, round_trip, after_call. destruct s as [d t q n f l]. cbn.
  destruct f as [|[] fs]; cbn; intros H; try discriminate; reflexivity.
Qed.

Lemma round_trip_db (s : St) : db (snd (round_trip s)) = db s.
Proof.
  unfold round_trip. destruct (faults s) as [|[] fs]; reflexivity.
Qed.


Lemma pool_read_db {A} (q : Db -> A) (s : St) : db (snd (pool_read q s)) = db s.
Proof.
  unfold pool_read, bind, round_trip.
  destruct (faults s) as [|[] fs]; reflexivity.
Qed.

Lemma int_param_ok (z : Z) (s : St) :
  pg_int4 z = true -> int_param z s = (Ok tt, s).
Proof. unfold int_param. intros ->. reflexivity. Qed.

Lemma int_param_refused (z : Z) (s : St) :
  pg_int4 z = false -> int_param z s = (Throw InvalidInput, s).
Proof. unfold int_param. intros ->. reflexivity. Qed.

Lemma pool_read_by_id_ok {A} (id : Z) (q : Db -> A) (s : St) :
  answers s -> pg_int4 id = true ->
  pool_read_by_id id q s = (Ok (q (db s)), after_call s).
Proof.
  intros H Hid. unfold pool_read_by_id, bind.
  rewrite (round_trip_ok s H), (int_param_ok _ _ Hid). reflexivity.
Qed.

Lemma pool_read_by_id_refused {A} (id : Z) (q : Db -> A) (s : St) :
  answers s -> pg_int4 id = false ->
  pool_read_by_id id q s = (Throw InvalidInput, after_call s).
Proof.
  intros H Hid. unfold pool_read_by_id, bind.
  rewrite (round_trip_ok s H), (int_param_refused _ _ Hid). reflexivity.
Qed.

Lemma filter_of_find {A} (f : A -> bool) (l : list A) (a : A) :
  find f l = Some a -> exists rest, filter f l = a :: rest.
Proof.
  induction l as [|x l IH]; cbn; [discriminate|].
  destruct (f x); intros H.
  - injection H as ->. eauto.
  - auto.
Qed.

Lemma filter_of_find_none {A} (f : A -> bool) (l : list A) :
  find f l = None -> filter f l = [].
Proof.
  induction l as [|x l IH]; cbn; [reflexivity|].
  destruct (f x); [discriminate | exact IH].
Qed.

(* ================================================================== *)
(** ** The middlewares, case by case *)
(* ================================================================== *)

Lemma target_found (request : Request) (s : St) (a : Account) :
  target request s = Some a ->
  pg_int4 (params_id request) = true
  /\ find (has_id (params_id request)) (accounts (db s)) = Some a.
Proof.
  unfold target. destruct (pg_int4 (params_id request)); [auto | discriminate].
Qed.

Lemma target_in_range (request : Request) (s : St) :
  pg_int4 (params_id request) = true ->
  target request s = find (has_id (params_id request)) (accounts (db s)).
Proof. unfold target. intros ->. reflexivity. Qed.

Lemma run_chain_cons (mw : Middleware) (rest : list Middleware)
      (h : Controller) (request : Request) (s : St) :
  run_chain (mw :: rest) h request s =
  match mw request s with
  | (Ok (Next request'), s') => run_chain rest h request' s'
  | (Ok (Respond response), s') => (Ok response, s')
  | (Throw e, s') => (Throw e, s')
  end.
Proof.
  cbn [run_chain]. unfold bind.
  destruct (mw request s) as [[[r | r] | e] s']; reflexivity.
Qed.

Lemma run_middlewares_cons (mw : Middleware) (rest : list Middleware)
      (request : Request) (s : St) :
  run_middlewares (mw :: rest) request s =
  match mw request s with
  | (Ok (Next request'), s') => run_middlewares rest request' s'
  | (Ok (Respond response), s') => (Ok (Respond response), s')
  | (Throw e, s') => (Throw e, s')
  end.
Proof.
  cbn [run_middlewares]. unfold bind.
  destruct (mw request s) as [[[r | r] | e] s']; reflexivity.
Qed.

Lemma requireRole_claims (minRole : Z) (request : Request) (c : Claims) (s : St) :
  claims request = Some c ->
  AdminAuth.requireRole minRole request s =
  (Ok (if claims_role c <? minRole
       then Respond (fail_json 403 "Insufficient permissions")
       else Next request), s).
Proof.
  intros Hc. unfold AdminAuth.requireRole. rewrite Hc.
  destruct (claims_role c <? minRole); reflexivity.
Qed.

Lemma preventSelfModification_claims (request : Request) (c : Claims) (s : St) :
  claims request = Some c ->
  AdminAuth.preventSelfModification request s =
  (Ok (if params_id request =? claims_id c
       then Respond (fail_json 403
              "Cannot modify your own account through admin endpoints. Use the user profile endpoints to modify your own account")
       else Next request), s).
Proof.
  intros Hc. unfold AdminAuth.preventSelfModification. rewrite Hc.
  destruct (params_id request =? claims_id c); reflexivity.
Qed.

Lemma canModifyTargetUser_found (request : Request) (c : Claims) (a : Account) (s : St) :
  claims request = Some c ->
  answers s ->
  target request s = Some a ->
  AdminAuthTarget.canModifyTargetUser request s =
  (Ok (if account_role a >? claims_role c
       then Respond (fail_json 403 "Cannot modify user with higher role than yours")
       else Next (set_targetUserRole request (account_role a))),
   after_call s).
Proof.
  intros Hc Hs Ht. destruct (target_found _ _ _ Ht) as [Hin Hfd].
  unfold AdminAuthTarget.canModifyTargetUser. rewrite Hc.
  unfold try_catch, bind at 1. rewrite (pool_read_by_id_ok _ _ s Hs Hin).
  destruct (filter_of_find _ _ _ Hfd) as [rest Hf].
  unfold select_account_role. rewrite Hf. cbn [map].
  destruct (account_role a >? claims_role c); reflexivity.
Qed.

Lemma canModifyTargetUser_absent (request : Request) (c : Claims) (s : St) :
  claims request = Some c ->
  answers s ->
  pg_int4 (params_id request) = true ->
  target request s = None ->
  AdminAuthTarget.canModifyTargetUser request s = (Ok (Next request), after_call s).
Proof.
  intros Hc Hs Hin Ht. rewrite (target_in_range _ _ Hin) in Ht.
  unfold AdminAuthTarget.canModifyTargetUser. rewrite Hc.
  unfold try_catch, bind at 1. rewrite (pool_read_by_id_ok _ _ s Hs Hin).
  unfold select_account_role. rewrite (filter_of_find_none _ _ Ht). reflexivity.
Qed.

(** An identifier the key column cannot hold makes the role read fail. *)
Lemma canModifyTargetUser_out_of_range (request : Request) (c : Claims) (s : St) :
  claims request = Some c ->
  answers s ->
  pg_int4 (params_id request) = false ->
  AdminAuthTarget.canModifyTargetUser request s
  = (Ok (Respond (fail_json 500 "Failed to verify permissions")), after_call s).
Proof.
  intros Hc Hs Hout. unfold AdminAuthTarget.canModifyTargetUser. rewrite Hc.
  unfold try_catch, bind at 1. rewrite (pool_read_by_id_refused _ _ s Hs Hout).
  reflexivity.
Qed.

(* ================================================================== *)
(** ** The target ceiling *)
(* ================================================================== *)

(** Behind the pipeline with the ceiling step, a target whose stored role
    is above the actor's is answered 403 before the controller runs. *)
Lemma ceiling_pipeline_forbids
      (h : Controller) (request : Request) (c : Claims) (a : Account) (s : St) :
  claims request = Some c ->
  answers s ->
  target request s = Some a ->
  account_role a > claims_role c ->
  exists response s',
    run_chain AdminAuthTarget.requireAdminForUserModification h request s
    = (Ok response, s')
    /\ status response = 403
    /\ db s' = db s.
Proof.
  intros Hc Hs Ht Hrole.
  unfold AdminAuthTarget.requireAdminForUserModification.
  rewrite run_chain_cons.
  unfold AdminAuthTarget.requireRole. rewrite (requireRole_claims _ _ _ _ Hc).
  destruct (claims_role c <? ROLES.MODERATOR).
  { eexists _, _. repeat split; reflexivity. }
  rewrite run_chain_cons.
  unfold AdminAuthTarget.preventSelfModification.
  rewrite (preventSelfModification_claims _ _ _ Hc).
  destruct (params_id request =? claims_id c).
  { eexists _, _. repeat split; reflexivity. }
  rewrite run_chain_cons, (canModifyTargetUser_found _ _ _ _ Hc Hs Ht).
  replace (account_role a >? claims_role c) with true
    by (symmetry; apply Z.gtb_lt; lia).
  eexists _, _. repeat split; reflexivity.
Qed.

(** C1: on the pipeline that holds the target-ceiling step, a request whose
    target exists with a stored role strictly above the actor's is answered
    403 Forbidden and the tables are as they were, whatever controller
    stands behind the pipeline and whether the route runs the pipeline
    alone ([PUT /users/:id], [DELETE /users/:id], [PUT /users/:id/role]) or
    after [requireRole(ROLES.ADMIN)] ([PUT /users/:id/password]); when the
    stored role is at most the actor's, [canModifyTargetUser] hands the
    request on. *)
Theorem target_ceiling_forbids_higher_stored_role
        (h : Controller) (request : Request) (c : Claims) (a : Account) (s : St) :
  claims request = Some c ->
  answers s ->
  target request s = Some a ->
  (account_role a > claims_role c ->
   (exists response s',
      run_chain AdminAuthTarget.requireAdminForUserModification h request s
      = (Ok response, s')
      /\ status response = 403
      /\ db s' = db s)
   /\ (exists response s',
         run_chain (AdminAuth.requireRole ROLES.ADMIN
                    :: AdminAuthTarget.requireAdminForUserModification) h request s
         = (Ok response, s')
         /\ status response = 403
         /\ db s' = db s))
  /\ (account_role a <= claims_role c ->
      fst (AdminAuthTarget.canModifyTargetUser request s)
      = Ok (Next (set_targetUserRole request (account_role a)))).
Proof.
  intros Hc Hs Ht. split; intros Hrole.
  - pose proof (ceiling_pipeline_forbids h request c a s Hc Hs Ht Hrole) as Hp.
    split; [exact Hp|].
    rewrite run_chain_cons, (requireRole_claims _ _ _ _ Hc).
    destruct (claims_role c <? ROLES.ADMIN); [|exact Hp].
    eexists _, _. repeat split; reflexivity.
  - rewrite (canModifyTargetUser_found _ _ _ _ Hc Hs Ht).
    replace (account_role a >? claims_role c) with false; [reflexivity|].
    symmetry. rewrite Z.gtb_ltb. apply Z.ltb_ge. lia.
Qed.

Lemma target_ceiling_forbids_higher_stored_role_witness :
  target (Example.on_target 2 empty_body) Example.world = Some Example.olga
  /\ account_role Example.olga > claims_role Example.as_alice
  /\ exists response s',
       delete_users_id AdminAuthTarget.requireAdminForUserModification
                       (Example.on_target 2 empty_body) Example.world
       = (Ok response, s')
       /\ status response = 403
       /\ db s' = db Example.world.
Proof.
  split; [reflexivity|]. split; [reflexivity|].
  destruct (target_ceiling_forbids_higher_stored_role
              deleteUser (Example.on_target 2 empty_body)
              Example.as_alice Example.olga Example.world) as [Hdeny _];
    try reflexivity.
  destruct Hdeny as [Hp _]; [reflexivity | exact Hp].
Defined.

(** C4 (as the code has it): the ceiling is strict.  [canModifyTargetUser]
    answers instead of handing on exactly when the target's stored role is
    strictly greater than the actor's; a target of the actor's own role is
    handed on. *)
Theorem target_ceiling_denies_iff_strictly_greater
        (request : Request) (c : Claims) (a : Account) (s : St) :
  claims request = Some c ->
  answers s ->
  target request s = Some a ->
  ((exists response,
      fst (AdminAuthTarget.canModifyTargetUser request s) = Ok (Respond response))
   <-> account_role a > claims_role c)
  /\ (account_role a = claims_role c ->
      fst (AdminAuthTarget.canModifyTargetUser request s)
      = Ok (Next (set_targetUserRole request (account_role a)))).
Proof.
  intros Hc Hs Ht. rewrite (canModifyTargetUser_found _ _ _ _ Hc Hs Ht).
  rewrite Z.gtb_ltb. cbn [fst].
  destruct (Z.ltb_spec (claims_role c) (account_role a)) as [Hlt | Hle].
  - split; [split; [lia | eauto] | lia].
  - split; [split; [intros [r Hr]; discriminate | lia] | reflexivity].
Qed.

Lemma target_ceiling_denies_iff_strictly_greater_witness :
  target (Example.on_target 3 empty_body) Example.world = Some Example.carol
  /\ account_role Example.carol = claims_role Example.as_alice
  /\ fst (AdminAuthTarget.canModifyTargetUser
            (Example.on_target 3 empty_body) Example.world)
     = Ok (Next (set_targetUserRole (Example.on_target 3 empty_body) 2)).
Proof.
  split; [reflexivity|]. split; [reflexivity|].
  apply (target_ceiling_denies_iff_strictly_greater
           (Example.on_target 3 empty_body)
           Example.as_alice Example.carol Example.world);
    reflexivity.
Defined.

(** C4, the claim as worded refuted: Alice (role 2) deletes Carol, whose
    stored role is 2 as well; the pipeline with the ceiling step lets the
    request through and the controller marks Carol deleted. *)
Lemma equal_stored_role_is_not_denied :
  fst (run_chain AdminAuthTarget.requireAdminForUserModification deleteUser
                 (Example.on_target 3 empty_body) Example.world)
  = Ok (ok_json "User deleted successfully")
  /\ map account_status
         (accounts (db (snd (run_chain AdminAuthTarget.requireAdminForUserModification
                                       deleteUser
                                       (Example.on_target 3 empty_body)
                                       Example.world))))
     = ["active"; "active"; "deleted"].
Proof. split; reflexivity. Qed.

(** C2: the copy of [requireAdminForUserModification] at
    [src/core/middleware/adminAuth.ts] has no target-ceiling step.  Alice
    (moderator, role 2) asks to delete Olga (owner, role 5): behind that
    copy the request reaches the controller and Olga is marked deleted;
    behind the copy that lists [canModifyTargetUser] it is answered 403. *)
Theorem pipeline_without_ceiling_lets_moderator_delete_owner :
  delete_users_id AdminAuth.requireAdminForUserModification
                  (Example.on_target 2 empty_body) Example.world
  = (Ok (ok_json "User deleted successfully"),
     set_db Example.world
            (mkDb [Example.alice; mark_deleted 100 Example.olga; Example.carol]
                  (credentials Example.store)))
  /\ delete_users_id AdminAuthTarget.requireAdminForUserModification
                     (Example.on_target 2 empty_body) Example.world
     = (Ok (fail_json 403 "Cannot modify user with higher role than yours"),
        Example.world).
Proof. split; reflexivity. Qed.

(** The pipeline without the ceiling step never consults the store: what
    it answers depends on the request alone, whatever role the target has. *)
Lemma pipeline_without_ceiling_ignores_store (request : Request) (s1 s2 : St) :
  fst (run_middlewares AdminAuth.requireAdminForUserModification request s1)
  = fst (run_middlewares AdminAuth.requireAdminForUserModification request s2).
Proof.
  unfold AdminAuth.requireAdminForUserModification.
  destruct (claims request) as [c|] eqn:Hc.
  - rewrite !run_middlewares_cons, !(requireRole_claims _ _ _ _ Hc).
    destruct (claims_role c <? ROLES.MODERATOR); [reflexivity|].
    rewrite !run_middlewares_cons, !(preventSelfModification_claims _ _ _ Hc).
    destruct (params_id request =? claims_id c); [reflexivity|].
    rewrite !run_middlewares_cons.
    unfold AdminAuth.canManageRole. rewrite Hc.
    repeat match goal with
           | |- context [if ?b then _ else _] => destruct b
           end; reflexivity.
  - rewrite !run_middlewares_cons. unfold AdminAuth.requireRole.
    rewrite Hc. reflexivity.
Qed.

(** X24: the pipeline with the ceiling step as a decision table: minimum role,
    then the self-modification guard, then the target's stored role, then
    the role in the body; the first check that fails answers. *)
Lemma pipeline_with_ceiling_in_order
      (request : Request) (c : Claims) (a : Account) (s : St) :
  claims request = Some c ->
  answers s ->
  target request s = Some a ->
  fst (run_middlewares AdminAuthTarget.requireAdminForUserModification request s)
  = if claims_role c <? ROLES.MODERATOR
    then Ok (Respond (fail_json 403 "Insufficient permissions"))
    else if params_id request =? claims_id c
    then Ok (Respond (fail_json 403
           "Cannot modify your own account through admin endpoints. Use the user profile endpoints to modify your own account"))
    else if account_role a >? claims_role c
    then Ok (Respond (fail_json 403 "Cannot modify user with higher role than yours"))
    else fst (AdminAuth.canManageRole
                (set_targetUserRole request (account_role a)) (after_call s)).
Proof.
  intros Hc Hs Ht.
  unfold AdminAuthTarget.requireAdminForUserModification,
    AdminAuthTarget.requireRole, AdminAuthTarget.preventSelfModification,
    AdminAuthTarget.canManageRole.
  rewrite run_middlewares_cons, (requireRole_claims _ _ _ _ Hc).
  destruct (claims_role c <? ROLES.MODERATOR); [reflexivity|].
  rewrite run_middlewares_cons, (preventSelfModification_claims _ _ _ Hc).
  destruct (params_id request =? claims_id c); [reflexivity|].
  rewrite run_middlewares_cons, (canModifyTargetUser_found _ _ _ _ Hc Hs Ht).
  destruct (account_role a >? claims_role c); [reflexivity|].
  rewrite run_middlewares_cons.
  destruct (AdminAuth.canManageRole _ (after_call s)) as [[[r | r] | e] s'];
    reflexivity.
Qed.

(* ================================================================== *)
(** ** [UPDATE account ... WHERE account_id = $n] *)
(* ================================================================== *)

Lemma update_account_answers (id : Z) (f : Z -> Account -> Account) (s : St) :
  answers s ->
  pg_int4 id = true ->
  update_account id f s =
  if existsb (fun a => key_clash a (f (now s) a)
                         (filter (fun b => negb (has_id id b)) (accounts (db s))))
             (filter (has_id id) (accounts (db s)))
  then (Throw UniqueViolation, after_call s)
  else (Ok (map (f (now s)) (filter (has_id id) (accounts (db s)))),
        set_db (after_call s)
               (mkDb (rewritten id (f (now s)) (accounts (db s)))
                     (credentials (db s)))).
Proof.
  intros Hs Hin. unfold update_account, bind at 1. rewrite (round_trip_ok s Hs).
  unfold bind at 1. rewrite (int_param_ok _ _ Hin).
  unfold bind, get. cbn [after_call set_faults now db].
  match goal with |- context [existsb ?p ?l] => destruct (existsb p l) end;
    reflexivity.
Qed.

Lemma update_account_refused (id : Z) (f : Z -> Account -> Account) (s : St) :
  answers s ->
  pg_int4 id = false ->
  update_account id f s = (Throw InvalidInput, after_call s).
Proof.
  intros Hs Hout. unfold update_account, bind at 1. rewrite (round_trip_ok s Hs).
  unfold bind at 1. rewrite (int_param_refused _ _ Hout). reflexivity.
Qed.

Lemma update_account_fails (id : Z) (f : Z -> Account -> Account) (s : St) :
  ~ answers s ->
  update_account id f s = (Throw ConnectionError, after_call s).
Proof.
  unfold answers, update_account, bind, round_trip, after_call.
  destruct s as [d t q n fl l]. cbn.
  destruct fl as [|[] fs]; cbn; intros H; try reflexivity; now destruct H.
Qed.

Lemma rewritten_absent (id : Z) (f : Account -> Account) (rows : list Account) :
  filter (has_id id) rows = [] -> rewritten id f rows = rows.
Proof.
  unfold rewritten. induction rows as [|a rows IH]; cbn; [reflexivity|].
  destruct (has_id id a); [discriminate|].
  intros H. rewrite (IH H). reflexivity.
Qed.

Lemma rewritten_length (id : Z) (f : Account -> Account) (rows : list Account) :
  List.length (rewritten id f rows) = List.length rows.
Proof. unfold rewritten. apply length_map. Qed.

Lemma no_phone_clash (others : list Account) :
  existsb (fun b => same_phone (phone b) None) others = false.
Proof.
  induction others as [|b bs IH]; cbn; [reflexivity|].
  rewrite IH. destruct (phone b); reflexivity.
Qed.

(** An assignment that leaves username, email and phone alone breaks no
    uniqueness constraint. *)
Lemma key_clash_frame (old new : Account) (others : list Account) :
  username new = username old ->
  email new = email old ->
  phone new = phone old ->
  key_clash old new others = false.
Proof.
  intros Hu He Hp. unfold key_clash. rewrite Hu, He, Hp, !String.eqb_refl.
  cbn [negb andb orb].
  destruct (phone old) as [p|]; cbn [same_phone].
  - rewrite String.eqb_refl. reflexivity.
  - rewrite no_phone_clash. reflexivity.
Qed.

Lemma no_clash_when_keys_kept (f : Account -> Account)
      (others rows : list Account) :
  (forall a, username (f a) = username a /\ email (f a) = email a
             /\ phone (f a) = phone a) ->
  existsb (fun a => key_clash a (f a) others) rows = false.
Proof.
  intros Hf. induction rows as [|a rows IH]; cbn; [reflexivity|].
  destruct (Hf a) as (Hu & He & Hp).
  rewrite (key_clash_frame a (f a) others Hu He Hp), IH. reflexivity.
Qed.

(** In a world that has no row for the target, an update that keeps the
    keys rewrites nothing and returns no row. *)
Lemma update_account_absent (request : Request) (f : Z -> Account -> Account) (s : St) :
  answers s ->
  pg_int4 (params_id request) = true ->
  target request s = None ->
  (forall ts a, username (f ts a) = username a /\ email (f ts a) = email a
                /\ phone (f ts a) = phone a) ->
  fst (update_account (params_id request) f s) = Ok []
  /\ db (snd (update_account (params_id request) f s)) = db s.
Proof.
  intros Hs Hin Ht Hf. rewrite (target_in_range _ _ Hin) in Ht.
  rewrite (update_account_answers _ _ _ Hs Hin).
  rewrite (no_clash_when_keys_kept (f (now s)) _ _ (Hf (now s))).
  pose proof (filter_of_find_none _ _ Ht) as Hnone.
  rewrite Hnone, (rewritten_absent _ _ _ Hnone). cbn.
  destruct (db s); split; reflexivity.
Qed.

(* ================================================================== *)
(** ** Soft delete *)
(* ================================================================== *)

Lemma mark_deleted_keeps_keys (ts : Z) (a : Account) :
  username (mark_deleted ts a) = username a
  /\ email (mark_deleted ts a) = email a
  /\ phone (mark_deleted ts a) = phone a.
Proof. repeat split. Qed.

(** C8: deleting an existing account removes no record.  Whether or not
    the store answers, the account table keeps its length and the
    credential table is untouched.  When the store answers, the controller
    answers 200 and the table holds the same rows, those of the target's
    identifier with [account_status] set to ['deleted'] and [updated_at] to
    the current time and every other column as it was; when it does not,
    the controller answers 500 and the tables are as they were. *)
Theorem deleteUser_only_marks_deleted (request : Request) (a : Account) (s : St) :
  target request s = Some a ->
  let s' := snd (deleteUser request s) in
  let a' := mark_deleted (now s) a in
  List.length (accounts (db s')) = List.length (accounts (db s))
  /\ credentials (db s') = credentials (db s)
  /\ (answers s ->
      fst (deleteUser request s) = Ok (ok_json "User deleted successfully")
      /\ accounts (db s') = rewritten (params_id request) (mark_deleted (now s))
                                      (accounts (db s))
      /\ In a' (accounts (db s')))
  /\ (~ answers s ->
      fst (deleteUser request s) = Ok (fail_json 500 "Failed to delete user")
      /\ db s' = db s)
  /\ account_status a' = "deleted"
  /\ updated_at a' = now s
  /\ mkAccount (account_id a') (firstname a') (lastname a') (username a')
               (email a') (email_verified a') (phone a') (phone_verified a')
               (account_role a') (account_status a) (created_at a') (updated_at a)
     = a.
Proof.
  intros Ht s' a'. subst s' a'.
  destruct (target_found _ _ _ Ht) as [Hin Hfd].
  assert (Hok : answers s ->
                deleteUser request s
                = (Ok (ok_json "User deleted successfully"),
                   set_db (after_call s)
                          (mkDb (rewritten (params_id request)
                                           (mark_deleted (now s)) (accounts (db s)))
                                (credentials (db s))))).
  { intros Hs. unfold deleteUser, try_catch, bind.
    rewrite (update_account_answers _ _ _ Hs Hin).
    rewrite (no_clash_when_keys_kept (mark_deleted (now s)) _ _
               (mark_deleted_keeps_keys (now s))).
    destruct (filter_of_find _ _ _ Hfd) as [rest Hf]. rewrite Hf. reflexivity. }
  assert (Hko : ~ answers s ->
                deleteUser request s
                = (Ok (fail_json 500 "Failed to delete user"), after_call s)).
  { intros Hs. unfold deleteUser, try_catch, bind.
    rewrite (update_account_fails _ _ _ Hs). reflexivity. }
  assert (Hdec : answers s \/ ~ answers s).
  { unfold answers. destruct (hd false (faults s)); [right | left]; congruence. }
  split; [|split; [|split; [|split; [|split; [|split]]]]].
  - destruct Hdec as [Hs | Hs].
    + rewrite (Hok Hs). apply rewritten_length.
    + rewrite (Hko Hs). reflexivity.
  - destruct Hdec as [Hs | Hs].
    + rewrite (Hok Hs). reflexivity.
    + rewrite (Hko Hs). reflexivity.
  - intros Hs. rewrite (Hok Hs). cbn. repeat split.
    unfold rewritten. apply in_map_iff. exists a.
    apply find_some in Hfd. destruct Hfd as [Hmem Hid]. rewrite Hid. tauto.
  - intros Hs. rewrite (Hko Hs). split; reflexivity.
  - reflexivity.
  - reflexivity.
  - destruct a; reflexivity.
Qed.

Lemma deleteUser_only_marks_deleted_witness :
  target (Example.on_target 3 empty_body) Example.world = Some Example.carol
  /\ answers Example.world
  /\ fst (deleteUser (Example.on_target 3 empty_body) Example.world)
     = Ok (ok_json "User deleted successfully")
  /\ accounts (db (snd (deleteUser (Example.on_target 3 empty_body) Example.world)))
     = [Example.alice; Example.olga; mark_deleted 100 Example.carol].
Proof.
  split; [reflexivity|]. split; [reflexivity|].
  destruct (deleteUser_only_marks_deleted
              (Example.on_target 3 empty_body) Example.carol Example.world)
    as (_ & _ & Hok & _); [reflexivity|].
  destruct Hok as (Hr & Ha & _); [reflexivity|].
  split; [exact Hr | exact Ha].
Defined.

(* ================================================================== *)
(** ** A target the store does not have *)
(* ================================================================== *)

Lemma deleteUser_absent (request : Request) (s : St) :
  answers s ->
  pg_int4 (params_id request) = true ->
  target request s = None ->
  fst (deleteUser request s) = Ok (fail_json 404 "User not found")
  /\ db (snd (deleteUser request s)) = db s.
Proof.
  intros Hs Hin Ht.
  destruct (update_account_absent request mark_deleted s Hs Hin Ht
              mark_deleted_keeps_keys) as [Hr Hd].
  unfold deleteUser, try_catch, bind.
  destruct (update_account (params_id request) mark_deleted s) as [[rows | e] s'].
  - cbn in Hr, Hd. injection Hr as ->. split; [reflexivity | exact Hd].
  - discriminate.
Qed.

Lemma changeUserRole_absent (request : Request) (role : Z) (s : St) :
  answers s ->
  pg_int4 (params_id request) = true ->
  target request s = None ->
  pg_int (b_role (body request)) = Some role ->
  fst (changeUserRole request s) = Ok (fail_json 404 "User not found")
  /\ db (snd (changeUserRole request s)) = db s.
Proof.
  intros Hs Hin Ht Hrole.
  destruct (update_account_absent request
              (fun ts a => set_updated_at ts (set_account_role role a)) s Hs Hin Ht)
    as [Hr Hd]; [repeat split|].
  unfold changeUserRole, try_catch, bind. rewrite Hrole.
  destruct (update_account (params_id request) _ s) as [[rows | e] s'].
  - cbn in Hr, Hd. injection Hr as ->. split; [reflexivity | exact Hd].
  - discriminate.
Qed.

(** C10 (as the code has it): for a target the store does not have, and
    whose identifier the key column can hold, [canModifyTargetUser] hands the
    request on unchanged, so the pipeline with the ceiling step answers
    exactly as its three other steps do (which may still be 403: minimum
    role, self-modification, role in the body); the controller that then
    runs answers 404 and writes nothing (for [changeUserRole]: when the role
    of the body is one the role column can hold).  For an identifier the key
    column cannot hold the role read fails, and the step answers 500. *)
Theorem absent_target_passes_ceiling (request : Request) (c : Claims) (s : St) :
  claims request = Some c ->
  answers s ->
  target request s = None ->
  (pg_int4 (params_id request) = true ->
   AdminAuthTarget.canModifyTargetUser request s = (Ok (Next request), after_call s)
   /\ fst (run_middlewares AdminAuthTarget.requireAdminForUserModification request s)
      = fst (run_middlewares AdminAuth.requireAdminForUserModification request s)
   /\ (answers (after_call s) ->
       fst (deleteUser request (after_call s)) = Ok (fail_json 404 "User not found")
       /\ db (snd (deleteUser request (after_call s))) = db s
       /\ forall role,
            pg_int (b_role (body request)) = Some role ->
            fst (changeUserRole request (after_call s))
            = Ok (fail_json 404 "User not found")
            /\ db (snd (changeUserRole request (after_call s))) = db s))
  /\ (pg_int4 (params_id request) = false ->
      AdminAuthTarget.canModifyTargetUser request s
      = (Ok (Respond (fail_json 500 "Failed to verify permissions")), after_call s)).
Proof.
  intros Hc Hs Ht.
  split; [intros Hin | exact (canModifyTargetUser_out_of_range request c s Hc Hs)].
  pose proof (canModifyTargetUser_absent request c s Hc Hs Hin Ht) as Hmw.
  split; [exact Hmw|]. split.
  - unfold AdminAuthTarget.requireAdminForUserModification,
      AdminAuth.requireAdminForUserModification,
      AdminAuthTarget.requireRole, AdminAuthTarget.preventSelfModification,
      AdminAuthTarget.canManageRole.
    rewrite !run_middlewares_cons, !(requireRole_claims _ _ _ _ Hc).
    destruct (claims_role c <? ROLES.MODERATOR); [reflexivity|].
    rewrite !run_middlewares_cons, !(preventSelfModification_claims _ _ _ Hc).
    destruct (params_id request =? claims_id c); [reflexivity|].
    rewrite run_middlewares_cons, Hmw, !run_middlewares_cons.
    unfold AdminAuth.canManageRole. rewrite Hc.
    repeat match goal with
           | |- context [if ?b then _ else _] => destruct b
           end; reflexivity.
  - intros Hs'.
    assert (Ht' : target request (after_call s) = None) by exact Ht.
    destruct (deleteUser_absent request (after_call s) Hs' Hin Ht') as [Hr Hd].
    split; [exact Hr|]. split; [exact Hd|].
    intros role Hrole.
    exact (changeUserRole_absent request role (after_call s) Hs' Hin Ht' Hrole).
Qed.

Lemma absent_target_passes_ceiling_witness :
  target (Example.on_target 999 (Example.with_role (JNum (inject_Z 2))))
         Example.world = None
  /\ AdminAuthTarget.canModifyTargetUser
       (Example.on_target 999 (Example.with_role (JNum (inject_Z 2)))) Example.world
     = (Ok (Next (Example.on_target 999 (Example.with_role (JNum (inject_Z 2))))),
        after_call Example.world)
  /\ target (Example.on_target 2147483648 empty_body) Example.world = None
  /\ AdminAuthTarget.canModifyTargetUser
       (Example.on_target 2147483648 empty_body) Example.world
     = (Ok (Respond (fail_json 500 "Failed to verify permissions")),
        after_call Example.world).
Proof.
  split; [reflexivity|].
  destruct (absent_target_passes_ceiling
              (Example.on_target 999 (Example.with_role (JNum (inject_Z 2))))
              Example.as_alice Example.world
              eq_refl eq_refl eq_refl) as [Hin _].
  split; [exact (proj1 (Hin eq_refl))|]. split; [reflexivity|].
  destruct (absent_target_passes_ceiling
              (Example.on_target 2147483648 empty_body)
              Example.as_alice Example.world
              eq_refl eq_refl eq_refl) as [_ Hout].
  exact (Hout eq_refl).
Defined.

(** C10, the claim as worded refuted: the store has no account 999, and the
    pipeline still answers 403 Forbidden, because the body asks for role 5
    and Alice's role is 2. *)
Lemma pipeline_forbids_absent_target :
  target (Example.on_target 999 (Example.with_role (JNum (inject_Z 5))))
         Example.world = None
  /\ fst (run_middlewares AdminAuthTarget.requireAdminForUserModification
            (Example.on_target 999 (Example.with_role (JNum (inject_Z 5))))
            Example.world)
     = Ok (Respond (fail_json 403 "Cannot assign role higher than your own")).
Proof. split; reflexivity. Qed.

(* ================================================================== *)
(** ** Transactions: account and credential together *)
(* ================================================================== *)

Arguments select_existing : simpl never.
Arguments select_account_id : simpl never.
Arguments collides : simpl never.
Arguments pg_int : simpl never.
Arguments pg_int4 : simpl never.
Arguments Nat.ltb : simpl never.
Arguments Nat.eqb : simpl never.

(** [createUser] commits the account and its credential together or not at
    all, and a response is only sent with the transaction closed. *)
Lemma createUser_atomic
      (generateSaltedHash : option string -> option (string * string))
      (request : Request) (s : St) :
  let '(r, s') := createUser generateSaltedHash request s in
  match r with
  | Ok response =>
      txn s' = None
      /\ if status response =? 201
         then exists a sh,
                db s' = mkDb (accounts (db s) ++ [a])
                             (credentials (db s)
                              ++ [mkCredential (account_id a) (snd sh) (fst sh)])
                /\ generateSaltedHash (b_password (body request)) = Some sh
                /\ account_id a = seq s
                /\ Some (username a) = b_username (body request)
                /\ Some (email a) = b_email (body request)
                /\ Some (account_role a) = pg_int (b_role (body request))
                /\ account_status a = "active"
         else db s' = db s
  | Throw _ => db s' = db s
  end.
Proof.
  destruct s as [d t q n f l]. destruct request as [c id b tr]. destruct b.
  unfold createUser, finally, try_catch, pool_connect, BEGIN, ROLLBACK, COMMIT,
    client_read, insert_account, insert_credential, int_param, salted, bind, get,
    modify, round_trip, throw, ret.
  run_controller.
  all: try (split; reflexivity); try reflexivity.
  all: split; [reflexivity|]; cbn.
  all: match goal with
       | Hsh : _ _ = Some ?p
         |- exists a sh, mkDb (_ ++ [?x]) _ = _ /\ _ => exists x, p
       end.
  all: repeat split; reflexivity.
Qed.

(** [resetUserPassword] replaces the credential of the target or leaves
    every table as it was. *)
Lemma resetUserPassword_atomic
      (generateSaltedHash : option string -> option (string * string))
      (request : Request) (s : St) :
  let '(r, s') := resetUserPassword generateSaltedHash request s in
  match r with
  | Ok response =>
      txn s' = None
      /\ if status response =? 200
         then exists sh,
                db s' = mkDb (accounts (db s))
                          (map (fun c =>
                                  if cred_account_id c =? params_id request
                                  then mkCredential (cred_account_id c) (snd sh) (fst sh)
                                  else c)
                               (credentials (db s)))
                /\ generateSaltedHash (b_password (body request)) = Some sh
         else db s' = db s
  | Throw _ => db s' = db s
  end.
Proof.
  destruct s as [d t q n f l]. destruct request as [c id b tr]. destruct b.
  unfold resetUserPassword, finally, try_catch, pool_connect, BEGIN, ROLLBACK,
    COMMIT, client_read_by_id, update_credential, int_param, salted, bind, get,
    modify, round_trip, throw, ret.
  run_controller.
  all: try (split; reflexivity); try reflexivity.
  all: split; [reflexivity|]; cbn.
  all: match goal with
       | Hsh : _ _ = Some ?p |- _ => exists p
       end.
  all: repeat split; reflexivity.
Qed.

(** C6: admin user creation and admin password reset are atomic.  Whatever
    call to the store fails, whatever the hash function answers and
    whatever constraint the insert breaks, the committed tables afterwards
    are either exactly as before (every outcome but success), or hold all
    the writes of the unit: the new account with its credential for
    [createUser] (201), the replaced credential for [resetUserPassword]
    (200).  And no response is sent with the transaction still open: it
    was committed or rolled back first, so nothing uncommitted is left
    behind on the connection that goes back to the pool. *)
Theorem account_and_credential_writes_are_atomic
        (generateSaltedHash : option string -> option (string * string))
        (request : Request) (s : St) :
  (let '(r, s') := createUser generateSaltedHash request s in
   match r with
   | Ok response =>
       txn s' = None
       /\ if status response =? 201
          then exists a sh,
                 db s' = mkDb (accounts (db s) ++ [a])
                              (credentials (db s)
                               ++ [mkCredential (account_id a) (snd sh) (fst sh)])
                 /\ generateSaltedHash (b_password (body request)) = Some sh
                 /\ account_id a = seq s
                 /\ Some (username a) = b_username (body request)
                 /\ Some (email a) = b_email (body request)
          else db s' = db s
   | Throw _ => db s' = db s
   end)
  /\ (let '(r, s') := resetUserPassword generateSaltedHash request s in
      match r with
      | Ok response =>
          txn s' = None
          /\ if status response =? 200
             then exists sh,
                    db s' = mkDb (accounts (db s))
                              (map (fun c =>
                                      if cred_account_id c =? params_id request
                                      then mkCredential (cred_account_id c)
                                                        (snd sh) (fst sh)
                                      else c)
                                   (credentials (db s)))
                    /\ generateSaltedHash (b_password (body request)) = Some sh
             else db s' = db s
      | Throw _ => db s' = db s
      end).
Proof.
  split.
  - pose proof (createUser_atomic generateSaltedHash request s) as H.
    destruct (createUser generateSaltedHash request s) as [[response | e] s'];
      [|exact H].
    destruct H as [Htx H]. split; [exact Htx|].
    destruct (status response =? 201); [|exact H].
    destruct H as (a & sh & Hdb & Hsh & Hid & Hu & He & _).
    exists a, sh. auto.
  - pose proof (resetUserPassword_atomic generateSaltedHash request s) as H.
    destruct (resetUserPassword generateSaltedHash request s)
      as [[response | e] s']; exact H.
Qed.

(* ================================================================== *)
(** ** Uniqueness violations *)
(* ================================================================== *)

(** X25: creating a user whose username or email some account already
    holds is answered 409 and writes nothing, as long as the store answers. *)
Lemma createUser_conflict
      (generateSaltedHash : option string -> option (string * string))
      (request : Request) (s : St) (a : Account) :
  faults s = [] ->
  In a (accounts (db s)) ->
  Some (username a) = b_username (body request)
  \/ Some (email a) = b_email (body request) ->
  fst (createUser generateSaltedHash request s)
  = Ok (fail_json 409 "Username or email already exists")
  /\ db (snd (createUser generateSaltedHash request s)) = db s.
Proof.
  intros Hf Hin Hdup.
  assert (Hex : (0 <? List.length (select_existing (b_username (body request))
                                      (b_email (body request)) (db s)))%nat = true).
  { unfold select_existing. rewrite length_map. apply Nat.ltb_lt.
    assert (Hm : In a (filter (fun x => sql_eq (username x) (b_username (body request))
                                        || sql_eq (email x) (b_email (body request)))
                              (accounts (db s)))).
    { apply filter_In. split; [exact Hin|]. apply orb_true_iff.
      destruct Hdup as [<- | <-]; [left | right]; apply String.eqb_refl. }
    destruct (filter _ (accounts (db s))); [destruct Hm | cbn; lia]. }
  destruct s as [d t q n f l]. cbn in Hf. subst f.
  unfold createUser, finally, try_catch, pool_connect, BEGIN, ROLLBACK,
    client_read, bind, get, modify, round_trip, ret.
  cbn in Hex |- *. rewrite Hex. cbn. split; reflexivity.
Qed.

(** The username the [SET] list of [updateUser] leaves in a row. *)
Lemma username_after_updates (b : Body) (ts : Z) (a : Account) :
  username (set_updated_at ts (apply_updates (updates_of b) a))
  = match b_username b with
    | Some u => u
    | None => username a
    end.
Proof.
  destruct b as [fn ln un em pw ph r ar st ev pv]. unfold updates_of, apply_updates.
  cbn [b_firstname b_lastname b_username b_email b_phone b_account_status
       b_email_verified b_phone_verified].
  destruct fn, ln, un, em, ph, st, ev, pv; reflexivity.
Qed.

(** Renaming an existing account to a username that another account holds
    is answered with the catch-all 500 of [updateUser], and writes
    nothing. *)
Lemma updateUser_conflict_is_500
      (request : Request) (a other : Account) (u : string) (s : St) :
  answers s ->
  target request s = Some a ->
  b_username (body request) = Some u ->
  u <> username a ->
  In other (accounts (db s)) ->
  account_id other <> params_id request ->
  username other = u ->
  updateUser request s = (Ok (fail_json 500 "Failed to update user"), after_call s).
Proof.
  intros Hs Ht Hu Hne Hin Hid Hname.
  unfold updateUser, try_catch.
  assert (Hlen : (List.length (updates_of (body request)) =? 0)%nat = false).
  { unfold updates_of. rewrite Hu. apply Nat.eqb_neq.
    rewrite !length_app. cbn [push List.length]. lia. }
  destruct (target_found _ _ _ Ht) as [Hrng Hfd].
  rewrite Hlen. unfold bind. rewrite (update_account_answers _ _ _ Hs Hrng).
  destruct (filter_of_find _ _ _ Hfd) as [rest Hf]. rewrite Hf.
  cbn [existsb]. unfold key_clash at 1.
  rewrite username_after_updates, Hu.
  replace (u =? username a)%string with false
    by (symmetry; apply String.eqb_neq; exact Hne).
  replace (existsb (fun b => (username b =? u)%string)
                   (filter (fun b => negb (has_id (params_id request) b))
                           (accounts (db s)))) with true; [reflexivity|].
  symmetry. apply existsb_exists. exists other. split.
  - apply filter_In. split; [exact Hin|].
    apply negb_true_iff, Z.eqb_neq. exact Hid.
  - rewrite Hname. apply String.eqb_refl.
Qed.

(** C7: Carol is renamed to Alice's username.  The [UPDATE] breaks the
    uniqueness constraint, and [updateUser] answers with its catch-all 500
    "Failed to update user", the answer it has for every failure, while
    [createUser] answers the same clash with 409.  Neither writes. *)
Theorem updateUser_duplicate_username_is_generic_failure :
  updateUser (Example.on_target 3 (Example.with_username "alice")) Example.world
  = (Ok (fail_json 500 "Failed to update user"), Example.world)
  /\ createUser Example.hasher (Example.on_target 0 Conflict.second_alice)
                Example.world
     = (Ok (fail_json 409 "Username or email already exists"), Example.world).
Proof. split; reflexivity. Qed.


(* ================================================================== *)
(** ** Further properties of the middlewares *)
(* ================================================================== *)

(** X1: without claims every middleware answers 401, and so does each copy
    of the pipeline, before any controller runs and without a call to the
    store: the world is left exactly as it was. *)
Theorem missing_claims_answer_401
        (h : Controller) (minRole : Z) (request : Request) (s : St) :
  claims request = None ->
  AdminAuth.requireRole minRole request s = (Ok (Respond unauthenticated), s)
  /\ AdminAuth.canManageRole request s = (Ok (Respond unauthenticated), s)
  /\ AdminAuth.preventSelfModification request s = (Ok (Respond unauthenticated), s)
  /\ AdminAuthTarget.canModifyTargetUser request s = (Ok (Respond unauthenticated), s)
  /\ run_chain AdminAuth.requireAdminForUserModification h request s
     = (Ok unauthenticated, s)
  /\ run_chain AdminAuthTarget.requireAdminForUserModification h request s
     = (Ok unauthenticated, s).
Proof.
  intros Hc.
  assert (H1 : forall m, AdminAuth.requireRole m request s
                         = (Ok (Respond unauthenticated), s)).
  { intros m. unfold AdminAuth.requireRole. rewrite Hc. reflexivity. }
  repeat split.
  - apply H1.
  - unfold AdminAuth.canManageRole. rewrite Hc. reflexivity.
  - unfold AdminAuth.preventSelfModification. rewrite Hc. reflexivity.
  - unfold AdminAuthTarget.canModifyTargetUser. rewrite Hc. reflexivity.
  - unfold AdminAuth.requireAdminForUserModification.
    rewrite run_chain_cons, H1. reflexivity.
  - unfold AdminAuthTarget.requireAdminForUserModification,
      AdminAuthTarget.requireRole.
    rewrite run_chain_cons, H1. reflexivity.
Qed.

Lemma missing_claims_answer_401_witness :
  delete_users_id AdminAuthTarget.requireAdminForUserModification
                  (Samples.anonymous 2 empty_body) Example.world
  = (Ok unauthenticated, Example.world).
Proof.
  apply (missing_claims_answer_401 deleteUser 0 (Samples.anonymous 2 empty_body)
                                   Example.world).
  reflexivity.
Defined.

(** X2: an actor who names its own account as the target is answered 403
    by either copy of the pipeline, whatever its role, the body and the
    store hold; no controller runs and no call to the store is made. *)
Theorem own_account_is_forbidden
        (h : Controller) (request : Request) (c : Claims) (s : St) :
  claims request = Some c ->
  params_id request = claims_id c ->
  (exists response,
     run_chain AdminAuth.requireAdminForUserModification h request s
     = (Ok response, s) /\ status response = 403)
  /\ (exists response,
        run_chain AdminAuthTarget.requireAdminForUserModification h request s
        = (Ok response, s) /\ status response = 403).
Proof.
  intros Hc Hid.
  unfold AdminAuth.requireAdminForUserModification,
    AdminAuthTarget.requireAdminForUserModification,
    AdminAuthTarget.requireRole, AdminAuthTarget.preventSelfModification.
  rewrite !run_chain_cons, !(requireRole_claims _ _ _ _ Hc).
  destruct (claims_role c <? ROLES.MODERATOR).
  { split; eexists; split; reflexivity. }
  rewrite !run_chain_cons, !(preventSelfModification_claims _ _ _ Hc).
  rewrite Hid, Z.eqb_refl. split; eexists; split; reflexivity.
Qed.

Lemma own_account_is_forbidden_witness :
  exists response,
    put_users_id_role AdminAuthTarget.requireAdminForUserModification
                      (Example.on_target 1 (Example.with_role (JNum (inject_Z 1))))
                      Example.world
    = (Ok response, Example.world) /\ status response = 403.
Proof.
  apply (own_account_is_forbidden changeUserRole
           (Example.on_target 1 (Example.with_role (JNum (inject_Z 1))))
           Example.as_alice Example.world); reflexivity.
Defined.

(** X3: the password route asks for an administrator.  An actor below role
    3 is answered 403 "Insufficient permissions" with nothing read or
    written, a moderator included, whom the pipeline alone would let
    through; for an actor of role 3 or more the route is the pipeline
    followed by [resetUserPassword]. *)
Theorem password_route_requires_admin
        (generateSaltedHash : option string -> option (string * string))
        (pipeline : list Middleware) (request : Request) (c : Claims) (s : St) :
  claims request = Some c ->
  (claims_role c < ROLES.ADMIN ->
   put_users_id_password generateSaltedHash pipeline request s
   = (Ok (fail_json 403 "Insufficient permissions"), s))
  /\ (ROLES.ADMIN <= claims_role c ->
      put_users_id_password generateSaltedHash pipeline request s
      = run_chain pipeline (resetUserPassword generateSaltedHash) request s).
Proof.
  intros Hc. unfold put_users_id_password.
  rewrite run_chain_cons, (requireRole_claims _ _ _ _ Hc).
  split; intros Hr.
  - replace (claims_role c <? ROLES.ADMIN) with true
      by (symmetry; apply Z.ltb_lt; exact Hr).
    reflexivity.
  - replace (claims_role c <? ROLES.ADMIN) with false
      by (symmetry; apply Z.ltb_ge; exact Hr).
    reflexivity.
Qed.

Lemma password_route_requires_admin_witness :
  claims_role Example.as_alice < ROLES.ADMIN
  /\ put_users_id_password Example.hasher
       AdminAuthTarget.requireAdminForUserModification
       (Example.on_target 3 (Samples.dana 1)) Example.world
     = (Ok (fail_json 403 "Insufficient permissions"), Example.world).
Proof.
  split; [reflexivity|].
  apply (password_route_requires_admin Example.hasher
           AdminAuthTarget.requireAdminForUserModification
           (Example.on_target 3 (Samples.dana 1)) Example.as_alice Example.world);
    reflexivity.
Defined.

(** X4: when the read of the target's role fails, the pipeline with the
    ceiling step answers 500 "Failed to verify permissions" and hands
    nothing on: no controller runs and the tables are as they were. *)
Theorem ceiling_fails_closed
        (h : Controller) (request : Request) (c : Claims) (s : St) :
  claims request = Some c ->
  ROLES.MODERATOR <= claims_role c ->
  params_id request <> claims_id c ->
  ~ answers s ->
  run_chain AdminAuthTarget.requireAdminForUserModification h request s
  = (Ok (fail_json 500 "Failed to verify permissions"), after_call s)
  /\ db (after_call s) = db s.
Proof.
  intros Hc Hr Hid Hs. split; [|reflexivity].
  unfold AdminAuthTarget.requireAdminForUserModification,
    AdminAuthTarget.requireRole, AdminAuthTarget.preventSelfModification.
  rewrite run_chain_cons, (requireRole_claims _ _ _ _ Hc).
  replace (claims_role c <? ROLES.MODERATOR) with false
    by (symmetry; apply Z.ltb_ge; exact Hr).
  rewrite run_chain_cons, (preventSelfModification_claims _ _ _ Hc).
  replace (params_id request =? claims_id c) with false
    by (symmetry; apply Z.eqb_neq; exact Hid).
  rewrite run_chain_cons.
  unfold AdminAuthTarget.canModifyTargetUser. rewrite Hc.
  unfold try_catch, pool_read_by_id, bind, round_trip, after_call, answers in *.
  destruct s as [d t q n f l]. cbn in *.
  destruct f as [|[] fs]; cbn in *; try (now destruct Hs); reflexivity.
Qed.

Lemma ceiling_fails_closed_witness :
  ~ answers Samples.store_down
  /\ run_chain AdminAuthTarget.requireAdminForUserModification deleteUser
               (Example.on_target 3 empty_body) Samples.store_down
     = (Ok (fail_json 500 "Failed to verify permissions"),
        after_call Samples.store_down).
Proof.
  split; [discriminate|].
  apply (ceiling_fails_closed deleteUser (Example.on_target 3 empty_body)
                              Example.as_alice Samples.store_down);
    first [reflexivity | discriminate].
Defined.

(** X5: [account_role] is only a fallback.  When the body's [role] is
    falsy, [canManageRole] judges [account_role] in its place, range first
    and hierarchy second; when [role] is truthy, [account_role] is never
    looked at, whatever it holds. *)
Theorem account_role_is_a_fallback
        (request : Request) (c : Claims) (role v1 v2 : JsValue) (z : Z) (s : St) :
  claims request = Some c ->
  (truthy role = false ->
   z <> 0 ->
   answer_of (fst (AdminAuth.canManageRole
                     (with_body request
                        (with_roles (body request) role (JNum (inject_Z z)))) s))
   = if (z <? 1) || (5 <? z)
     then Some (fail_json 400
                  "Invalid role value. Role must be an integer between 1 and 5")
     else if claims_role c <? z
          then Some (fail_json 403 "Cannot assign role higher than your own")
          else None)
  /\ (truthy role = true ->
      answer_of (fst (AdminAuth.canManageRole
                        (with_body request (with_roles (body request) role v1)) s))
      = answer_of (fst (AdminAuth.canManageRole
                          (with_body request (with_roles (body request) role v2)) s))).
Proof.
  intros Hc. split.
  - intros Hf Hz. unfold AdminAuth.canManageRole.
    cbn [claims with_body body with_roles b_role b_account_role]. rewrite Hc.
    rewrite (js_or_falsy _ _ Hf).
    assert (Ht : truthy (JNum (inject_Z z)) = true).
    { rewrite truthy_int. apply negb_true_iff, Z.eqb_neq, Hz. }
    rewrite (truthy_defined _ Ht).
    rewrite Number_isInteger_int, js_lt_int, !js_gt_int. cbn [negb orb].
    destruct ((z <? 1) || (5 <? z)); [reflexivity|].
    destruct (claims_role c <? z); reflexivity.
  - intros Ht. unfold AdminAuth.canManageRole.
    cbn [claims with_body body with_roles b_role b_account_role]. rewrite Hc.
    rewrite !(js_or_truthy _ _ Ht), (truthy_defined _ Ht).
    repeat match goal with
           | |- context [if ?b then _ else _] => destruct b
           end; reflexivity.
Qed.

Lemma account_role_is_a_fallback_witness :
  answer_of (fst (AdminAuth.canManageRole
                    (Example.on_target 3 (Samples.with_account_role (JNum (inject_Z 5))))
                    Example.world))
  = Some (fail_json 403 "Cannot assign role higher than your own").
Proof.
  destruct (account_role_is_a_fallback
              (Example.on_target 3 empty_body) Example.as_alice
              JUndefined JNull JNull 5 Example.world) as [Hfall _];
    [reflexivity|].
  apply Hfall; [reflexivity | discriminate].
Defined.

(* ================================================================== *)
(** ** Reading back what an update wrote *)
(* ================================================================== *)

Lemma pg_int_int (z : Z) :
  pg_int4 z = true -> pg_int (JNum (inject_Z z)) = Some z.
Proof.
  intros Hz. unfold pg_int. rewrite Number_isInteger_int. cbn [inject_Z Qnum Qden].
  rewrite Z.div_1_r, Hz. reflexivity.
Qed.

Lemma pg_int_int_inv (z v : Z) : pg_int (JNum (inject_Z z)) = Some v -> v = z.
Proof.
  unfold pg_int. rewrite Number_isInteger_int. cbn [inject_Z Qnum Qden].
  rewrite Z.div_1_r. destruct (pg_int4 z); cbn; congruence.
Qed.

(** What [pg_int] lets through, the [INT] column can hold. *)
Lemma pg_int_in_range (v : JsValue) (z : Z) : pg_int v = Some z -> pg_int4 z = true.
Proof.
  unfold pg_int. destruct v as [| | b | q | str | ]; try discriminate.
  destruct (Number_isInteger (JNum q)); [|discriminate].
  destruct (pg_int4 (Qnum q / Z.pos (Qden q))) eqn:Hq; cbn; [|discriminate].
  intros [= <-]. exact Hq.
Qed.

Lemma roles_in_range (r : Z) : 1 <= r <= 5 -> pg_int4 r = true.
Proof. intros Hr. unfold pg_int4. apply andb_true_iff. split; apply Z.leb_le; lia. Qed.

Lemma answers_after_no_faults (s : St) : faults s = [] -> answers (after_call s).
Proof.
  intros Hf. unfold answers, after_call. cbn. rewrite Hf. reflexivity.
Qed.

Lemma answers_of_no_faults (s : St) : faults s = [] -> answers s.
Proof. intros Hf. unfold answers. rewrite Hf. reflexivity. Qed.

(** An update whose [SET] list keeps the keys goes through when the store
    answers. *)
Lemma update_account_keeping_keys (id : Z) (f : Z -> Account -> Account) (s : St) :
  answers s ->
  pg_int4 id = true ->
  (forall ts a, username (f ts a) = username a /\ email (f ts a) = email a
                /\ phone (f ts a) = phone a) ->
  update_account id f s
  = (Ok (map (f (now s)) (filter (has_id id) (accounts (db s)))),
     set_db (after_call s)
            (mkDb (rewritten id (f (now s)) (accounts (db s)))
                  (credentials (db s)))).
Proof.
  intros Hs Hin Hf. rewrite (update_account_answers _ _ _ Hs Hin).
  rewrite (no_clash_when_keys_kept (f (now s)) _ _ (Hf (now s))). reflexivity.
Qed.

Lemma find_rewritten (id : Z) (f : Account -> Account) (rows : list Account) :
  (forall a, account_id (f a) = account_id a) ->
  find (has_id id) (rewritten id f rows) = option_map f (find (has_id id) rows).
Proof.
  intros Hf. unfold rewritten. induction rows as [|a rows IH]; cbn; [reflexivity|].
  destruct (has_id id a) eqn:Ha.
  - unfold has_id in *. rewrite Hf, Ha. reflexivity.
  - rewrite Ha. exact IH.
Qed.

Lemma rewritten_twice (id : Z) (f g : Account -> Account) (rows : list Account) :
  (forall a, account_id (f a) = account_id a) ->
  rewritten id g (rewritten id f rows) = rewritten id (fun a => g (f a)) rows.
Proof.
  intros Hf. unfold rewritten. rewrite map_map. apply map_ext. intros a.
  destruct (has_id id a) eqn:Ha.
  - unfold has_id in *. rewrite Hf, Ha. reflexivity.
  - rewrite Ha. reflexivity.
Qed.

Lemma rewritten_ext (id : Z) (f g : Account -> Account) (rows : list Account) :
  (forall a, f a = g a) -> rewritten id f rows = rewritten id g rows.
Proof.
  intros H. unfold rewritten. apply map_ext. intros a. rewrite H. reflexivity.
Qed.

Lemma rewritten_keeps_others (id : Z) (f : Account -> Account)
      (rows : list Account) (b : Account) :
  In b rows -> account_id b <> id -> In b (rewritten id f rows).
Proof.
  intros Hin Hid. unfold rewritten. apply in_map_iff. exists b. split; [|exact Hin].
  unfold has_id. replace (account_id b =? id) with false; [reflexivity|].
  symmetry. apply Z.eqb_neq. exact Hid.
Qed.

Lemma changeUserRole_found (request : Request) (a : Account) (r : Z) (s : St) :
  answers s ->
  target request s = Some a ->
  pg_int (b_role (body request)) = Some r ->
  changeUserRole request s
  = (Ok (ok_json "Role updated successfully"),
     set_db (after_call s)
            (mkDb (rewritten (params_id request)
                             (fun x => set_updated_at (now s) (set_account_role r x))
                             (accounts (db s)))
                  (credentials (db s)))).
Proof.
  intros Hs Ht Hr. destruct (target_found _ _ _ Ht) as [Hrng Hfd].
  unfold changeUserRole, try_catch. rewrite Hr. unfold bind.
  rewrite (update_account_keeping_keys _ _ s Hs Hrng) by (intros; repeat split).
  destruct (filter_of_find _ _ _ Hfd) as [rest Hf]. rewrite Hf. reflexivity.
Qed.

(** The row the target's identifier finds once the role change is done. *)
Lemma target_after_role_change (request : Request) (a : Account) (r : Z) (s : St) :
  answers s ->
  target request s = Some a ->
  pg_int (b_role (body request)) = Some r ->
  target request (snd (changeUserRole request s))
  = Some (set_updated_at (now s) (set_account_role r a)).
Proof.
  intros Hs Ht Hr. rewrite (changeUserRole_found _ _ _ _ Hs Ht Hr).
  destruct (target_found _ _ _ Ht) as [Hrng Hfd].
  unfold target. rewrite Hrng. cbn [snd db set_db accounts].
  rewrite find_rewritten by reflexivity.
  rewrite Hfd. reflexivity.
Qed.

(** A role the role column cannot hold, or one that is no integer, makes
    the [UPDATE] fail: the answer is 500 and nothing is written. *)
Lemma changeUserRole_role_refused (request : Request) (s : St) :
  answers s ->
  pg_int (b_role (body request)) = None ->
  changeUserRole request s
  = (Ok (fail_json 500 "Failed to change role"), after_call s).
Proof.
  intros Hs Hr. unfold changeUserRole, try_catch. rewrite Hr.
  unfold bind. rewrite (round_trip_ok s Hs). reflexivity.
Qed.

(** X6: a role change on an existing account, to a role [r] that the role
    column can hold ([pg_int] lets no other through: a role beyond the
    range of [INT] is answered 500, see [changeUserRole_role_refused]),
    answers 200 and is read back: the target's row then holds the new role
    and the current time as [updated_at] and every other column as before,
    so the stored role a later ceiling check reads is the new one; the
    other rows and the credential table are untouched. *)
Theorem changeUserRole_is_read_back (request : Request) (a : Account) (r : Z) (s : St) :
  answers s ->
  target request s = Some a ->
  pg_int (b_role (body request)) = Some r ->
  let s' := snd (changeUserRole request s) in
  fst (changeUserRole request s) = Ok (ok_json "Role updated successfully")
  /\ target request s' = Some (set_updated_at (now s) (set_account_role r a))
  /\ hd_error (select_account_role (params_id request) (db s')) = Some r
  /\ List.length (accounts (db s')) = List.length (accounts (db s))
  /\ (forall b, In b (accounts (db s)) -> account_id b <> params_id request ->
                In b (accounts (db s')))
  /\ credentials (db s') = credentials (db s).
Proof.
  intros Hs Ht Hr s'. subst s'.
  pose proof (target_after_role_change request a r s Hs Ht Hr) as Hfind.
  rewrite (changeUserRole_found _ _ _ _ Hs Ht Hr) in *.
  cbn [fst snd] in *.
  split; [reflexivity|]. split; [exact Hfind|]. split.
  { destruct (target_found _ _ _ Hfind) as [_ Hfd].
    destruct (filter_of_find _ _ _ Hfd) as [rest Hf].
    unfold select_account_role. rewrite Hf. reflexivity. }
  split; [apply rewritten_length|]. split; [|reflexivity].
  intros b Hin Hid. cbn [db set_db accounts]. apply rewritten_keeps_others; assumption.
Qed.

Lemma changeUserRole_is_read_back_witness :
  target (Example.on_target 3 (Example.with_role (JNum (inject_Z 1)))) Example.world
  = Some Example.carol
  /\ hd_error (select_account_role 3
       (db (snd (changeUserRole
                   (Example.on_target 3 (Example.with_role (JNum (inject_Z 1))))
                   Example.world))))
     = Some 1
  /\ pg_int (JNum (inject_Z 2147483648)) = None
  /\ changeUserRole
       (Example.on_target 3 (Example.with_role (JNum (inject_Z 2147483648))))
       Example.world
     = (Ok (fail_json 500 "Failed to change role"), Example.world).
Proof.
  split; [reflexivity|]. split; [|split; reflexivity].
  apply (changeUserRole_is_read_back
           (Example.on_target 3 (Example.with_role (JNum (inject_Z 1))))
           Example.carol 1 Example.world); reflexivity.
Defined.

(** X7: a promotion closes the door behind it.  Once [changeUserRole] has
    raised an account to role [r], [canModifyTargetUser] answers 403 to
    every later request on that account from an actor whose role is below
    [r], in any world that holds the tables the role change left. *)
Theorem promoted_target_is_out_of_reach
        (request later : Request) (a : Account) (r : Z) (c : Claims) (s s2 : St) :
  answers s ->
  target request s = Some a ->
  pg_int (b_role (body request)) = Some r ->
  db s2 = db (snd (changeUserRole request s)) ->
  answers s2 ->
  params_id later = params_id request ->
  claims later = Some c ->
  claims_role c < r ->
  AdminAuthTarget.canModifyTargetUser later s2
  = (Ok (Respond (fail_json 403 "Cannot modify user with higher role than yours")),
     after_call s2).
Proof.
  intros Hs Ht Hr Hdb Hs2 Hid Hc Hlt.
  pose proof (target_after_role_change request a r s Hs Ht Hr) as Hfind.
  assert (Ht2 : target later s2 = Some (set_updated_at (now s) (set_account_role r a))).
  { unfold target in *. rewrite Hid, Hdb. exact Hfind. }
  rewrite (canModifyTargetUser_found _ _ _ _ Hc Hs2 Ht2).
  cbn [account_role set_updated_at set_account_role].
  replace (r >? claims_role c) with true; [reflexivity|].
  symmetry. apply Z.gtb_lt. exact Hlt.
Qed.

Lemma promoted_target_is_out_of_reach_witness :
  AdminAuthTarget.canModifyTargetUser
    (Example.on_target 3 empty_body)
    (snd (changeUserRole (Samples.admin_on 3 (Example.with_role (JNum (inject_Z 3))))
                         Example.world))
  = (Ok (Respond (fail_json 403 "Cannot modify user with higher role than yours")),
     after_call (snd (changeUserRole
                        (Samples.admin_on 3 (Example.with_role (JNum (inject_Z 3))))
                        Example.world))).
Proof.
  apply (promoted_target_is_out_of_reach
           (Samples.admin_on 3 (Example.with_role (JNum (inject_Z 3))))
           (Example.on_target 3 empty_body)
           Example.carol 3 Example.as_alice Example.world);
    reflexivity.
Defined.

(* ================================================================== *)
(** ** The routes, end to end *)
(* ================================================================== *)

(** X8: [PUT /admin/users/:id/role] behind the pipeline with the ceiling
    step, for an existing target, a numeric non-zero role in the body and a
    store that answers.  The role is written exactly when the actor is at
    least a moderator, is not the target, is not below the target's stored
    role, and asks for a role in 1..5 that is not above its own; otherwise
    the answer is 403 or 400 and the tables are as they were. *)
Theorem role_change_route_end_to_end
        (request : Request) (c : Claims) (a : Account) (r : Z) (s : St) :
  claims request = Some c ->
  b_role (body request) = JNum (inject_Z r) ->
  r <> 0 ->
  target request s = Some a ->
  faults s = [] ->
  let out := put_users_id_role AdminAuthTarget.requireAdminForUserModification
                               request s in
  let allowed := ROLES.MODERATOR <= claims_role c
                 /\ params_id request <> claims_id c
                 /\ account_role a <= claims_role c
                 /\ 1 <= r <= 5
                 /\ r <= claims_role c in
  (allowed ->
   fst out = Ok (ok_json "Role updated successfully")
   /\ accounts (db (snd out))
      = rewritten (params_id request)
                  (fun x => set_updated_at (now s) (set_account_role r x))
                  (accounts (db s)))
  /\ (~ allowed ->
      exists response,
        fst out = Ok response
        /\ (status response = 403 \/ status response = 400)
        /\ db (snd out) = db s).
Proof.
  intros Hc Hb Hz Ht Hf out allowed. subst out allowed.
  pose proof (answers_of_no_faults s Hf) as Hs.
  pose proof (answers_after_no_faults s Hf) as Hs'.
  unfold put_users_id_role, AdminAuthTarget.requireAdminForUserModification,
    AdminAuthTarget.requireRole, AdminAuthTarget.preventSelfModification,
    AdminAuthTarget.canManageRole.
  rewrite run_chain_cons, (requireRole_claims _ _ _ _ Hc).
  destruct (Z.ltb_spec (claims_role c) ROLES.MODERATOR) as [H1 | H1].
  { split; [intros (H & _); lia|]. intros _. eexists. repeat split. now left. }
  rewrite run_chain_cons, (preventSelfModification_claims _ _ _ Hc).
  destruct (Z.eqb_spec (params_id request) (claims_id c)) as [H2 | H2].
  { split; [intros (_ & H & _); contradiction|].
    intros _. eexists. repeat split. now left. }
  rewrite run_chain_cons, (canModifyTargetUser_found _ _ _ _ Hc Hs Ht).
  rewrite Z.gtb_ltb.
  destruct (Z.ltb_spec (claims_role c) (account_role a)) as [H3 | H3].
  { split; [intros (_ & _ & H & _); lia|].
    intros _. eexists. repeat split. now left. }
  rewrite run_chain_cons.
  rewrite (canManageRole_int (set_targetUserRole request (account_role a)) c r
                             (after_call s) Hc Hb Hz).
  destruct (Z.ltb_spec r 1) as [H4 | H4]; cbn [orb].
  { split; [intros (_ & _ & _ & H & _); lia|].
    intros _. eexists. repeat split. now right. }
  destruct (Z.ltb_spec 5 r) as [H5 | H5].
  { split; [intros (_ & _ & _ & H & _); lia|].
    intros _. eexists. repeat split. now right. }
  destruct (Z.ltb_spec (claims_role c) r) as [H6 | H6].
  { split; [intros (_ & _ & _ & _ & H); lia|].
    intros _. eexists. repeat split. now left. }
  cbn [run_chain].
  assert (Hr : pg_int (b_role (body (set_targetUserRole request (account_role a))))
               = Some r).
  { cbn [body set_targetUserRole]. rewrite Hb.
    apply pg_int_int, roles_in_range. lia. }
  rewrite (changeUserRole_found (set_targetUserRole request (account_role a))
                                a r (after_call s) Hs' Ht Hr).
  split.
  - intros _. split; reflexivity.
  - intros Hn. exfalso. apply Hn. repeat split; assumption.
Qed.

Lemma role_change_route_end_to_end_witness :
  fst (put_users_id_role AdminAuthTarget.requireAdminForUserModification
         (Samples.admin_on 3 (Example.with_role (JNum (inject_Z 3)))) Example.world)
  = Ok (ok_json "Role updated successfully")
  /\ map account_role
         (accounts (db (snd (put_users_id_role
                               AdminAuthTarget.requireAdminForUserModification
                               (Samples.admin_on 3 (Example.with_role (JNum (inject_Z 3))))
                               Example.world))))
     = [2; 5; 3].
Proof.
  destruct (role_change_route_end_to_end
              (Samples.admin_on 3 (Example.with_role (JNum (inject_Z 3))))
              Samples.as_admin Example.carol 3 Example.world) as [Hyes _];
    try reflexivity; [discriminate|].
  destruct Hyes as [Hr Ha].
  { unfold ROLES.MODERATOR. cbn. repeat split; try lia; discriminate. }
  split; [exact Hr|]. rewrite Ha. reflexivity.
Defined.

(** X9: [POST /admin/users/create] never hands out a role above the
    actor's.  Whatever the store does, when the route answers 201 for a
    numeric non-zero role [r] in the body, the actor is at least a
    moderator, [r] lies in 1..5 and is at most the actor's role, and the
    account table has grown by one row of role [r]; with any other outcome
    the tables are as they were. *)
Theorem create_route_respects_the_hierarchy
        (generateSaltedHash : option string -> option (string * string))
        (request : Request) (c : Claims) (r : Z) (s : St) :
  claims request = Some c ->
  b_role (body request) = JNum (inject_Z r) ->
  r <> 0 ->
  let out := post_users_create generateSaltedHash request s in
  match fst out with
  | Ok response =>
      if status response =? 201
      then ROLES.MODERATOR <= claims_role c
           /\ 1 <= r <= 5
           /\ r <= claims_role c
           /\ exists a, accounts (db (snd out)) = (accounts (db s) ++ [a])%list
                        /\ account_role a = r
      else db (snd out) = db s
  | Throw _ => db (snd out) = db s
  end.
Proof.
  intros Hc Hb Hz out. subst out. unfold post_users_create.
  rewrite run_chain_cons, (requireRole_claims _ _ _ _ Hc).
  destruct (Z.ltb_spec (claims_role c) ROLES.MODERATOR) as [H1 | H1];
    [reflexivity|].
  rewrite run_chain_cons, (canManageRole_int request c r s Hc Hb Hz).
  destruct (Z.ltb_spec r 1) as [H4 | H4]; cbn [orb]; [reflexivity|].
  destruct (Z.ltb_spec 5 r) as [H5 | H5]; [reflexivity|].
  destruct (Z.ltb_spec (claims_role c) r) as [H6 | H6]; [reflexivity|].
  cbn [run_chain].
  pose proof (createUser_atomic generateSaltedHash request s) as H.
  destruct (createUser generateSaltedHash request s) as [[response | e] s'];
    cbn [fst snd]; [|exact H].
  destruct H as [_ H]. destruct (status response =? 201); [|exact H].
  destruct H as (a & sh & Hdb & _ & _ & _ & _ & Hrole & _).
  repeat split; try assumption; try lia.
  exists a. rewrite Hdb. split; [reflexivity|].
  rewrite Hb in Hrole. symmetry in Hrole. exact (pg_int_int_inv _ _ Hrole).
Qed.

Lemma create_route_respects_the_hierarchy_witness :
  fst (post_users_create Example.hasher (Samples.admin_on 0 (Samples.dana 3))
                         Example.world)
  = Ok (mkResponse 201 true "User created successfully")
  /\ ROLES.MODERATOR <= claims_role Samples.as_admin
  /\ 1 <= 3 <= 5
  /\ 3 <= claims_role Samples.as_admin
  /\ exists a,
       accounts (db (snd (post_users_create Example.hasher
                            (Samples.admin_on 0 (Samples.dana 3)) Example.world)))
       = (accounts (db Example.world) ++ [a])%list
       /\ account_role a = 3.
Proof.
  split; [reflexivity|].
  exact (create_route_respects_the_hierarchy Example.hasher
           (Samples.admin_on 0 (Samples.dana 3)) Samples.as_admin 3 Example.world
           eq_refl eq_refl ltac:(discriminate)).
Defined.

(* ================================================================== *)
(** ** [updateUser] *)
(* ================================================================== *)

(** The row [updateUser] writes, column by column. *)
Lemma updated_row (b : Body) (ts : Z) (a : Account) :
  set_updated_at ts (apply_updates (updates_of b) a)
  = mkAccount (account_id a)
              (or_kept (b_firstname b) (firstname a))
              (or_kept (b_lastname b) (lastname a))
              (or_kept (b_username b) (username a))
              (or_kept (b_email b) (email a))
              (or_kept (b_email_verified b) (email_verified a))
              (match b_phone b with Some p => Some p | None => phone a end)
              (or_kept (b_phone_verified b) (phone_verified a))
              (account_role a)
              (or_kept (b_account_status b) (account_status a))
              (created_at a)
              ts.
Proof.
  destruct b as [fn ln un em pw ph r ar st ev pv]. unfold updates_of, apply_updates.
  cbn [b_firstname b_lastname b_username b_email b_phone b_account_status
       b_email_verified b_phone_verified].
  destruct fn, ln, un, em, ph, st, ev, pv; reflexivity.
Qed.

(** What [update_account] leaves in the world, whether it succeeds or not. *)
Lemma update_account_outcome (id : Z) (f : Z -> Account -> Account) (s : St) :
  (exists e, update_account id f s = (Throw e, after_call s))
  \/ update_account id f s
     = (Ok (map (f (now s)) (filter (has_id id) (accounts (db s)))),
        set_db (after_call s)
               (mkDb (rewritten id (f (now s)) (accounts (db s)))
                     (credentials (db s)))).
Proof.
  destruct (hd false (faults s)) eqn:Hh.
  - left. exists ConnectionError. apply update_account_fails.
    unfold answers. congruence.
  - destruct (pg_int4 id) eqn:Hin.
    + rewrite (update_account_answers id f s Hh Hin).
      match goal with |- context [existsb ?p ?l] => destruct (existsb p l) end;
        [left; eauto | right; reflexivity].
    + left. exists InvalidInput. exact (update_account_refused id f s Hh Hin).
Qed.

Lemma Forall2_rewritten (P : Account -> Account -> Prop) (id : Z)
      (f : Account -> Account) (rows : list Account) :
  (forall a, P a a) ->
  (forall a, account_id a = id -> P a (f a)) ->
  Forall2 P rows (rewritten id f rows).
Proof.
  intros Hrefl Hf. unfold rewritten. induction rows as [|a rows IH]; cbn;
    constructor; [|exact IH].
  unfold has_id. destruct (Z.eqb_spec (account_id a) id); auto.
Qed.

Lemma Forall2_same {A} (P : A -> A -> Prop) (l : list A) :
  (forall a, P a a) -> Forall2 P l l.
Proof. intros H. induction l; constructor; auto. Qed.

(** X10: a body with none of the eight fields [updateUser] knows is
    answered 400 "No fields to update" without a call to the store, even
    when it holds a [role], an [account_role] or a [password]: this route
    changes neither role nor password. *)
Theorem updateUser_needs_a_field (request : Request) (s : St) :
  b_firstname (body request) = None ->
  b_lastname (body request) = None ->
  b_username (body request) = None ->
  b_email (body request) = None ->
  b_phone (body request) = None ->
  b_account_status (body request) = None ->
  b_email_verified (body request) = None ->
  b_phone_verified (body request) = None ->
  updateUser request s = (Ok (fail_json 400 "No fields to update"), s).
Proof.
  intros H1 H2 H3 H4 H5 H6 H7 H8. unfold updateUser, try_catch, updates_of.
  rewrite H1, H2, H3, H4, H5, H6, H7, H8. reflexivity.
Qed.

Lemma updateUser_needs_a_field_witness :
  updateUser (Samples.admin_on 3 (Example.with_role (JNum (inject_Z 3))))
             Example.world
  = (Ok (fail_json 400 "No fields to update"), Example.world).
Proof.
  apply (updateUser_needs_a_field
           (Samples.admin_on 3 (Example.with_role (JNum (inject_Z 3))))
           Example.world); reflexivity.
Defined.

(** X11: whatever the request and whatever the store does, [updateUser]
    leaves the credential table alone, adds and removes no account row,
    never changes the identifier, role or creation time of a row, and
    leaves every row of another identifier exactly as it was. *)
Theorem updateUser_frame (request : Request) (s : St) :
  credentials (db (snd (updateUser request s))) = credentials (db s)
  /\ Forall2 (fun a a' =>
                account_id a' = account_id a
                /\ account_role a' = account_role a
                /\ created_at a' = created_at a
                /\ (account_id a <> params_id request -> a' = a))
             (accounts (db s))
             (accounts (db (snd (updateUser request s)))).
Proof.
  set (P := fun a a' : Account =>
              account_id a' = account_id a
              /\ account_role a' = account_role a
              /\ created_at a' = created_at a
              /\ (account_id a <> params_id request -> a' = a)).
  assert (Hrefl : forall a, P a a) by (intros a; repeat split).
  unfold updateUser, try_catch.
  destruct (List.length (updates_of (body request)) =? 0)%nat.
  { split; [reflexivity | apply Forall2_same, Hrefl]. }
  unfold bind.
  destruct (update_account_outcome (params_id request)
              (fun ts a => set_updated_at ts
                             (apply_updates (updates_of (body request)) a)) s)
    as [[e He] | Hok].
  - rewrite He. split; [reflexivity | apply Forall2_same, Hrefl].
  - rewrite Hok.
    assert (Hdb : forall r : Response,
               db (snd (Ok r : Res Response,
                        set_db (after_call s)
                          (mkDb (rewritten (params_id request)
                                   (fun a => set_updated_at (now s)
                                      (apply_updates (updates_of (body request)) a))
                                   (accounts (db s)))
                                (credentials (db s)))))
               = mkDb (rewritten (params_id request)
                         (fun a => set_updated_at (now s)
                            (apply_updates (updates_of (body request)) a))
                         (accounts (db s)))
                      (credentials (db s))) by reflexivity.
    destruct (List.length _ =? 0)%nat; cbn [ret]; rewrite Hdb; cbn [credentials accounts];
      (split; [reflexivity|]);
      apply Forall2_rewritten; try exact Hrefl;
      intros a Ha; rewrite updated_row; repeat split; intros Hne; contradiction.
Qed.

(** X12: when [updateUser] answers 200 for an existing account, the row it
    finds afterwards holds the body's value in each of the eight columns
    the body names and the stored value in the others, the current time as
    [updated_at], and the identifier, role and creation time as before. *)
Theorem updateUser_stores_given_fields
        (request : Request) (a : Account) (response : Response) (s : St) :
  answers s ->
  target request s = Some a ->
  fst (updateUser request s) = Ok response ->
  status response = 200 ->
  target request (snd (updateUser request s))
  = Some (mkAccount (account_id a)
            (or_kept (b_firstname (body request)) (firstname a))
            (or_kept (b_lastname (body request)) (lastname a))
            (or_kept (b_username (body request)) (username a))
            (or_kept (b_email (body request)) (email a))
            (or_kept (b_email_verified (body request)) (email_verified a))
            (match b_phone (body request) with
             | Some p => Some p
             | None => phone a
             end)
            (or_kept (b_phone_verified (body request)) (phone_verified a))
            (account_role a)
            (or_kept (b_account_status (body request)) (account_status a))
            (created_at a)
            (now s)).
Proof.
  intros Hs Ht. destruct (target_found _ _ _ Ht) as [Hrng Hfd].
  unfold updateUser, try_catch.
  destruct (List.length (updates_of (body request)) =? 0)%nat.
  { cbn. intros [= <-]. discriminate. }
  unfold bind. rewrite (update_account_answers _ _ _ Hs Hrng).
  match goal with |- context [existsb ?p ?l] => destruct (existsb p l) end.
  { cbn. intros [= <-]. discriminate. }
  destruct (filter_of_find _ _ _ Hfd) as [rest Hf]. rewrite Hf.
  cbn [map List.length].
  match goal with
  | |- context [(S ?n =? 0)%nat] => change (S n =? 0)%nat with false
  end.
  cbn [ret fst snd]. intros _ _.
  unfold target. rewrite Hrng. cbn [db set_db accounts].
  rewrite find_rewritten by (intros x; rewrite updated_row; reflexivity).
  rewrite Hfd. cbn [option_map].
  rewrite updated_row. reflexivity.
Qed.

Lemma updateUser_stores_given_fields_witness :
  option_map username
    (target (Samples.admin_on 3 (Example.with_username "caroline"))
            (snd (updateUser (Samples.admin_on 3 (Example.with_username "caroline"))
                             Example.world)))
  = Some "caroline".
Proof.
  rewrite (updateUser_stores_given_fields
             (Samples.admin_on 3 (Example.with_username "caroline"))
             Example.carol (ok_json "User updated successfully") Example.world);
    reflexivity.
Defined.

(* ================================================================== *)
(** ** After a soft delete *)
(* ================================================================== *)

Lemma deleteUser_found (request : Request) (a : Account) (s : St) :
  answers s ->
  target request s = Some a ->
  deleteUser request s
  = (Ok (ok_json "User deleted successfully"),
     set_db (after_call s)
            (mkDb (rewritten (params_id request) (mark_deleted (now s))
                             (accounts (db s)))
                  (credentials (db s)))).
Proof.
  intros Hs Ht. destruct (target_found _ _ _ Ht) as [Hrng Hfd].
  unfold deleteUser, try_catch, bind.
  rewrite (update_account_keeping_keys _ _ s Hs Hrng mark_deleted_keeps_keys).
  destruct (filter_of_find _ _ _ Hfd) as [rest Hf]. rewrite Hf. reflexivity.
Qed.

Lemma target_after_delete (request : Request) (a : Account) (s s2 : St) :
  answers s ->
  target request s = Some a ->
  db s2 = db (snd (deleteUser request s)) ->
  target request s2 = Some (mark_deleted (now s) a)
  /\ accounts (db s2)
     = rewritten (params_id request) (mark_deleted (now s)) (accounts (db s)).
Proof.
  intros Hs Ht Hdb. rewrite (deleteUser_found _ _ _ Hs Ht) in Hdb.
  destruct (target_found _ _ _ Ht) as [Hrng Hfd].
  cbn [snd db set_db] in Hdb. unfold target. rewrite Hrng, Hdb. cbn [accounts].
  split; [|reflexivity].
  rewrite find_rewritten by reflexivity.
  rewrite Hfd. reflexivity.
Qed.

Lemma getUserById_found (request : Request) (a : Account) (s : St) :
  answers s ->
  target request s = Some a ->
  getUserById request s = (Ok (mkResponse 200 true ""), after_call s).
Proof.
  intros Hs Ht. destruct (target_found _ _ _ Ht) as [Hrng Hfd].
  unfold getUserById, try_catch, bind.
  rewrite (pool_read_by_id_ok _ _ s Hs Hrng). unfold select_account.
  destruct (filter_of_find _ _ _ Hfd) as [rest Hf]. rewrite Hf. reflexivity.
Qed.

Lemma select_existing_finds (u e : option string) (d : Db) (a : Account) :
  In a (accounts d) ->
  u = Some (username a) \/ e = Some (email a) ->
  (0 <? List.length (select_existing u e d))%nat = true.
Proof.
  intros Hin Hdup. unfold select_existing. rewrite length_map. apply Nat.ltb_lt.
  assert (Hm : In a (filter (fun x => sql_eq (username x) u || sql_eq (email x) e)
                            (accounts d))).
  { apply filter_In. split; [exact Hin|]. apply orb_true_iff.
    destruct Hdup as [-> | ->]; [left | right]; apply String.eqb_refl. }
  destruct (filter _ (accounts d)); [destruct Hm | cbn; lia].
Qed.

(** What [createUser] does when the pre-check finds a row and the store
    answers every call. *)
Lemma createUser_when_taken
      (generateSaltedHash : option string -> option (string * string))
      (request : Request) (s : St) :
  faults s = [] ->
  (0 <? List.length (select_existing (b_username (body request))
                                     (b_email (body request)) (db s)))%nat = true ->
  fst (createUser generateSaltedHash request s)
  = Ok (fail_json 409 "Username or email already exists")
  /\ db (snd (createUser generateSaltedHash request s)) = db s.
Proof.
  intros Hf Hex. destruct s as [d t q n f l]. cbn in Hf. subst f.
  unfold createUser, finally, try_catch, pool_connect, BEGIN, ROLLBACK,
    client_read, bind, get, modify, round_trip, ret.
  cbn in Hex |- *. rewrite Hex. cbn. split; reflexivity.
Qed.

(** X13: a deleted account stays within reach of the admin routes.  After
    a successful [deleteUser], [getUserById] still answers 200 for the
    identifier, and a second [deleteUser] answers 200 again, not 404: the
    tables it leaves are those of a single delete at the later time. *)
Theorem deleted_account_stays_in_reach
        (request : Request) (a : Account) (s s2 : St) :
  answers s ->
  target request s = Some a ->
  db s2 = db (snd (deleteUser request s)) ->
  answers s2 ->
  fst (getUserById request s2) = Ok (mkResponse 200 true "")
  /\ fst (deleteUser request s2) = Ok (ok_json "User deleted successfully")
  /\ accounts (db (snd (deleteUser request s2)))
     = rewritten (params_id request) (mark_deleted (now s2)) (accounts (db s)).
Proof.
  intros Hs Ht Hdb Hs2.
  destruct (target_after_delete request a s s2 Hs Ht Hdb) as [Ht2 Hrows].
  rewrite (getUserById_found _ _ _ Hs2 Ht2), (deleteUser_found _ _ _ Hs2 Ht2).
  cbn [fst snd db set_db accounts]. repeat split.
  rewrite Hrows, rewritten_twice by reflexivity.
  apply rewritten_ext. intros x. reflexivity.
Qed.

Lemma deleted_account_stays_in_reach_witness :
  fst (getUserById (Example.on_target 3 empty_body)
                   (snd (deleteUser (Example.on_target 3 empty_body) Example.world)))
  = Ok (mkResponse 200 true "")
  /\ fst (deleteUser (Example.on_target 3 empty_body)
                     (snd (deleteUser (Example.on_target 3 empty_body) Example.world)))
     = Ok (ok_json "User deleted successfully").
Proof.
  destruct (deleted_account_stays_in_reach
              (Example.on_target 3 empty_body) Example.carol Example.world
              (snd (deleteUser (Example.on_target 3 empty_body) Example.world)))
    as (Hg & Hd & _); [reflexivity | reflexivity | reflexivity | reflexivity |].
  split; [exact Hg | exact Hd].
Defined.

(** X14: a deleted account keeps its username and email taken.  After a
    successful [deleteUser], [createUser] answers 409 to every request for
    the deleted account's username or email, and writes nothing. *)
Theorem deleted_username_stays_taken
        (generateSaltedHash : option string -> option (string * string))
        (request new : Request) (a : Account) (s s2 : St) :
  answers s ->
  target request s = Some a ->
  db s2 = db (snd (deleteUser request s)) ->
  faults s2 = [] ->
  b_username (body new) = Some (username a)
  \/ b_email (body new) = Some (email a) ->
  fst (createUser generateSaltedHash new s2)
  = Ok (fail_json 409 "Username or email already exists")
  /\ db (snd (createUser generateSaltedHash new s2)) = db s2.
Proof.
  intros Hs Ht Hdb Hf2 Hdup.
  destruct (target_after_delete request a s s2 Hs Ht Hdb) as [Ht2 _].
  apply createUser_when_taken; [exact Hf2|].
  apply (select_existing_finds _ _ _ (mark_deleted (now s) a)).
  - destruct (target_found _ _ _ Ht2) as [_ Hfd]. apply find_some in Hfd. tauto.
  - exact Hdup.
Qed.

Lemma deleted_username_stays_taken_witness :
  fst (createUser Example.hasher (Samples.admin_on 0 Conflict.second_alice)
         (snd (deleteUser (Samples.admin_on 1 empty_body) Example.world)))
  = Ok (fail_json 409 "Username or email already exists").
Proof.
  apply (deleted_username_stays_taken Example.hasher
           (Samples.admin_on 1 empty_body)
           (Samples.admin_on 0 Conflict.second_alice)
           Example.alice Example.world
           (snd (deleteUser (Samples.admin_on 1 empty_body) Example.world)));
    first [reflexivity | left; reflexivity].
Defined.

(** X15: a soft delete is undone through [PUT /admin/users/:id].  After a
    successful [deleteUser], [updateUser] with the body
    [{ account_status: st }] answers 200 and leaves the tables that the
    same update would have left without the delete; with the status the
    account had, its row is the original one but for [updated_at]. *)
Theorem delete_is_undone_by_status_update
        (request : Request) (a : Account) (st : string)
        (cl : option Claims) (tr : option Z) (s s2 : St) :
  answers s ->
  target request s = Some a ->
  db s2 = db (snd (deleteUser request s)) ->
  answers s2 ->
  let restore := mkRequest cl (params_id request) (only_status st) tr in
  fst (updateUser restore s2) = Ok (ok_json "User updated successfully")
  /\ accounts (db (snd (updateUser restore s2)))
     = rewritten (params_id request)
                 (fun x => set_updated_at (now s2) (set_account_status st x))
                 (accounts (db s))
  /\ (st = account_status a ->
      target restore (snd (updateUser restore s2)) = Some (set_updated_at (now s2) a)).
Proof.
  intros Hs Ht Hdb Hs2 restore.
  destruct (target_after_delete request a s s2 Hs Ht Hdb) as [Ht2 Hrows].
  destruct (target_found _ _ _ Ht) as [Hrng Hfd].
  destruct (target_found _ _ _ Ht2) as [_ Hfd2].
  assert (Hrun : updateUser restore s2
                 = (Ok (ok_json "User updated successfully"),
                    set_db (after_call s2)
                      (mkDb (rewritten (params_id request)
                               (fun x => set_updated_at (now s2)
                                           (set_account_status st x))
                               (accounts (db s2)))
                            (credentials (db s2))))).
  { unfold updateUser, try_catch, bind. subst restore.
    cbn [body params_id only_status updates_of b_firstname b_lastname b_username
         b_email b_phone b_account_status b_email_verified b_phone_verified
         push app List.length].
    change (1 =? 0)%nat with false. cbv beta iota.
    rewrite (update_account_keeping_keys _ _ s2 Hs2 Hrng) by (intros; repeat split).
    destruct (filter_of_find _ _ _ Hfd2) as [rest Hf]. rewrite Hf. reflexivity. }
  assert (Hacc : accounts (db (snd (updateUser restore s2)))
                 = rewritten (params_id request)
                     (fun x => set_updated_at (now s2) (set_account_status st x))
                     (accounts (db s))).
  { rewrite Hrun. cbn [snd db set_db accounts].
    rewrite Hrows, rewritten_twice by reflexivity.
    apply rewritten_ext. intros x. reflexivity. }
  split; [rewrite Hrun; reflexivity|]. split; [exact Hacc|].
  intros ->. unfold target. subst restore. cbn [params_id]. rewrite Hrng, Hacc.
  rewrite find_rewritten by reflexivity.
  rewrite Hfd. cbn [option_map].
  destruct a; reflexivity.
Qed.

Lemma delete_is_undone_by_status_update_witness :
  target (Samples.admin_on 3 (only_status "active"))
         (snd (updateUser (Samples.admin_on 3 (only_status "active"))
                 (snd (deleteUser (Samples.admin_on 3 empty_body) Example.world))))
  = Some (set_updated_at 100 Example.carol).
Proof.
  destruct (delete_is_undone_by_status_update
              (Samples.admin_on 3 empty_body) Example.carol "active"
              (Some Samples.as_admin) None Example.world
              (snd (deleteUser (Samples.admin_on 3 empty_body) Example.world)))
    as (_ & _ & Hback); [reflexivity | reflexivity | reflexivity | reflexivity |].
  apply Hback. reflexivity.
Defined.

(* ================================================================== *)
(** ** [resetUserPassword] and [createUser] when the store answers *)
(* ================================================================== *)

Lemma select_account_id_found (id : Z) (d : Db) (a : Account) :
  find (has_id id) (accounts d) = Some a ->
  (List.length (select_account_id id d) =? 0)%nat = false.
Proof.
  intros Ht. unfold select_account_id.
  destruct (filter_of_find _ _ _ Ht) as [rest Hf]. rewrite Hf. reflexivity.
Qed.

Lemma select_account_id_absent (id : Z) (d : Db) :
  find (has_id id) (accounts d) = None ->
  (List.length (select_account_id id d) =? 0)%nat = true.
Proof.
  intros Ht. unfold select_account_id.
  rewrite (filter_of_find_none _ _ Ht). reflexivity.
Qed.

(** The credential table once the rows of [id] hold a new digest. *)
Lemma map_credentials_spec (id : Z) (hash slt : string) (creds : list Credential) :
  let creds' := map (fun c => if cred_account_id c =? id
                              then mkCredential (cred_account_id c) hash slt
                              else c) creds in
  Forall2 (fun c c' =>
             cred_account_id c' = cred_account_id c
             /\ (cred_account_id c = id -> salted_hash c' = hash /\ salt c' = slt)
             /\ (cred_account_id c <> id -> c' = c))
          creds creds'.
Proof.
  induction creds as [|c creds IH]; cbn; constructor; [|exact IH].
  destruct (Z.eqb_spec (cred_account_id c) id); cbn; repeat split;
    intros; congruence.
Qed.

(** X16: when the store answers every call, the account exists and the
    hash function answers, [resetUserPassword] answers 200, leaves the
    account table as it was, and gives every credential row of the target
    the new digest and salt; credential rows of other accounts are
    untouched, and none is added or removed.  An account without a
    credential row is still answered 200, with nothing written. *)
Theorem resetUserPassword_replaces_the_credential
        (generateSaltedHash : option string -> option (string * string))
        (request : Request) (a : Account) (sh : string * string) (s : St) :
  faults s = [] ->
  target request s = Some a ->
  generateSaltedHash (b_password (body request)) = Some sh ->
  let out := resetUserPassword generateSaltedHash request s in
  fst out = Ok (ok_json "Password reset successfully")
  /\ accounts (db (snd out)) = accounts (db s)
  /\ Forall2 (fun c c' =>
                cred_account_id c' = cred_account_id c
                /\ (cred_account_id c = params_id request ->
                    salted_hash c' = snd sh /\ salt c' = fst sh)
                /\ (cred_account_id c <> params_id request -> c' = c))
             (credentials (db s)) (credentials (db (snd out)))
  /\ ((forall c, In c (credentials (db s)) ->
                 cred_account_id c <> params_id request) ->
      db (snd out) = db s).
Proof.
  intros Hf Ht Hsh out. subst out.
  destruct (target_found _ _ _ Ht) as [Hrng Hfd].
  pose proof (select_account_id_found _ _ _ Hfd) as Hfound.
  clear Ht Hfd.
  destruct s as [d t q n f l]. cbn in Hf. subst f.
  unfold resetUserPassword, finally, try_catch, pool_connect, BEGIN, COMMIT,
    client_read_by_id, update_credential, int_param, salted, bind, get, modify,
    round_trip, ret.
  cbn in Hfound |- *. repeat (rewrite ?Hrng, ?Hfound, ?Hsh; cbn).
  split; [reflexivity|]. split; [reflexivity|]. split.
  - apply map_credentials_spec.
  - intros Hnone. clear Hfound. destruct d as [accs creds]. cbn in *. f_equal.
    induction creds as [|c creds IH]; cbn; [reflexivity|].
    rewrite IH by (intros c' Hc'; apply Hnone; now right).
    replace (cred_account_id c =? params_id request) with false; [reflexivity|].
    symmetry. apply Z.eqb_neq. apply Hnone. now left.
Qed.

Lemma resetUserPassword_replaces_the_credential_witness :
  fst (resetUserPassword Example.hasher (Samples.admin_on 3 (Samples.dana 1))
                         Example.world)
  = Ok (ok_json "Password reset successfully")
  /\ accounts (db (snd (resetUserPassword Example.hasher
                          (Samples.admin_on 3 (Samples.dana 1)) Example.world)))
     = accounts (db Example.world).
Proof.
  destruct (resetUserPassword_replaces_the_credential Example.hasher
              (Samples.admin_on 3 (Samples.dana 1)) Example.carol
              ("salt", "digest-of-correct horse") Example.world)
    as (Hr & Ha & _); [reflexivity | reflexivity | reflexivity |].
  split; [exact Hr | exact Ha].
Defined.

(** X17: for an identifier the store does not have, [resetUserPassword]
    writes nothing, whatever the password and the hash function: the
    account is looked up before the password is hashed.  The answer is 404
    when the key column can hold the identifier; when it cannot, the
    lookup itself fails and the answer is 500 "Failed to reset password".
    Either way the transaction is closed before the answer. *)
Theorem resetUserPassword_absent_target
        (generateSaltedHash : option string -> option (string * string))
        (request : Request) (s : St) :
  faults s = [] ->
  target request s = None ->
  fst (resetUserPassword generateSaltedHash request s)
  = Ok (if pg_int4 (params_id request)
        then fail_json 404 "User not found"
        else fail_json 500 "Failed to reset password")
  /\ db (snd (resetUserPassword generateSaltedHash request s)) = db s
  /\ txn (snd (resetUserPassword generateSaltedHash request s)) = None.
Proof.
  intros Hf Ht. destruct (pg_int4 (params_id request)) eqn:Hrng.
  - rewrite (target_in_range _ _ Hrng) in Ht.
    pose proof (select_account_id_absent _ _ Ht) as Habsent. clear Ht.
    destruct s as [d t q n f l]. cbn in Hf. subst f.
    unfold resetUserPassword, finally, try_catch, pool_connect, BEGIN, ROLLBACK,
      client_read_by_id, int_param, bind, get, modify, round_trip, ret.
    cbn in Habsent |- *. repeat (rewrite ?Hrng, ?Habsent; cbn).
    repeat split; reflexivity.
  - clear Ht. destruct s as [d t q n f l]. cbn in Hf. subst f.
    unfold resetUserPassword, finally, try_catch, pool_connect, BEGIN, ROLLBACK,
      client_read_by_id, int_param, bind, get, modify, round_trip, throw, ret.
    cbn. repeat (rewrite ?Hrng; cbn).
    repeat split; reflexivity.
Qed.

Lemma resetUserPassword_absent_target_witness :
  fst (resetUserPassword Example.hasher (Samples.admin_on 999 empty_body)
                         Example.world)
  = Ok (fail_json 404 "User not found")
  /\ fst (resetUserPassword Example.hasher (Samples.admin_on 2147483648 empty_body)
                            Example.world)
     = Ok (fail_json 500 "Failed to reset password").
Proof.
  split.
  - apply (resetUserPassword_absent_target Example.hasher
             (Samples.admin_on 999 empty_body) Example.world); reflexivity.
  - apply (resetUserPassword_absent_target Example.hasher
             (Samples.admin_on 2147483648 empty_body) Example.world); reflexivity.
Defined.

(** X18: creating a user and then creating it again.  When the store
    answers every call, nobody holds the username or the email, the new
    row clashes with no other, the role is an integer that the role column
    can hold (which is what [pg_int] lets through), the next value of the
    sequence is one the key column can hold and the password is hashed,
    [createUser] answers 201; the new row takes its identifier from
    the sequence, is ['active'] with both verified flags false, has no
    phone when the body's phone is empty, and its credential carries the
    identifier.  The same request on the world this leaves is answered 409
    and writes nothing. *)
Theorem createUser_then_again_conflicts
        (generateSaltedHash : option string -> option (string * string))
        (request : Request) (fn ln un em : string) (r : Z)
        (sh : string * string) (s : St) :
  faults s = [] ->
  b_firstname (body request) = Some fn ->
  b_lastname (body request) = Some ln ->
  b_username (body request) = Some un ->
  b_email (body request) = Some em ->
  pg_int (b_role (body request)) = Some r ->
  pg_int4 (seq s) = true ->
  generateSaltedHash (b_password (body request)) = Some sh ->
  select_existing (Some un) (Some em) (db s) = [] ->
  let row := mkAccount (seq s) fn ln un em false
                       (phone_or_null (b_phone (body request))) false r
                       "active" (now s) (now s) in
  collides row (accounts (db s)) = false ->
  let out := createUser generateSaltedHash request s in
  fst out = Ok (mkResponse 201 true "User created successfully")
  /\ db (snd out)
     = mkDb (accounts (db s) ++ [row])
            (credentials (db s) ++ [mkCredential (seq s) (snd sh) (fst sh)])
  /\ seq (snd out) = seq s + 1
  /\ fst (createUser generateSaltedHash request (snd out))
     = Ok (fail_json 409 "Username or email already exists")
  /\ db (snd (createUser generateSaltedHash request (snd out))) = db (snd out).
Proof.
  intros Hf Hfn Hln Hun Hem Hr Hseq Hsh Hnone row Hfree out.
  assert (Hrun : out = (Ok (mkResponse 201 true "User created successfully"),
                        mkSt (mkDb (accounts (db s) ++ [row])
                                   (credentials (db s)
                                    ++ [mkCredential (seq s) (snd sh) (fst sh)]))
                             None (seq s + 1) (now s) [] (leased s))).
  { subst out row. destruct s as [d t q n f l]. cbn in Hf. subst f.
    unfold createUser, finally, try_catch, pool_connect, BEGIN, COMMIT,
      client_read, insert_account, insert_credential, int_param, salted, bind,
      get, modify, round_trip, throw, ret.
    cbn in Hnone, Hfree, Hseq |- *. rewrite Hfn, Hln, Hun, Hem, Hnone, Hr, Hsh.
    cbn [List.length]. change (0 <? 0)%nat with false. cbn.
    rewrite Hseq. cbn. rewrite Hfree. reflexivity. }
  rewrite Hrun. cbn [fst snd db seq].
  split; [reflexivity|]. split; [reflexivity|]. split; [reflexivity|].
  apply createUser_when_taken; [reflexivity|].
  apply (select_existing_finds _ _ _ row).
  - cbn [db accounts]. apply in_or_app. right. now left.
  - left. rewrite Hun. reflexivity.
Qed.

Lemma createUser_then_again_conflicts_witness :
  fst (createUser Example.hasher (Samples.admin_on 0 (Samples.dana 1)) Example.world)
  = Ok (mkResponse 201 true "User created successfully")
  /\ fst (createUser Example.hasher (Samples.admin_on 0 (Samples.dana 1))
            (snd (createUser Example.hasher (Samples.admin_on 0 (Samples.dana 1))
                             Example.world)))
     = Ok (fail_json 409 "Username or email already exists")
  /\ fst (createUser Example.hasher (Samples.admin_on 0 (Samples.dana 2147483648))
                     Example.world)
     = Ok (fail_json 500 "Failed to create user").
Proof.
  destruct (createUser_then_again_conflicts Example.hasher
              (Samples.admin_on 0 (Samples.dana 1))
              "Dana" "Diaz" "dana" "dana@example.org" 1
              ("salt", "digest-of-correct horse") Example.world)
    as (H1 & _ & _ & H2 & _);
    [reflexivity | reflexivity | reflexivity | reflexivity | reflexivity
     | reflexivity | reflexivity | reflexivity | reflexivity | reflexivity |].
  split; [exact H1 | split; [exact H2 | reflexivity]].
Defined.

(* ================================================================== *)
(** ** [listUsers] and [getUserById] *)
(* ================================================================== *)

Lemma insert_desc_perm (a : Account) (l : list Account) :
  Permutation (insert_desc a l) (a :: l).
Proof.
  induction l as [|b l IH]; cbn; [reflexivity|].
  destruct (created_at b <? created_at a); [reflexivity|].
  rewrite IH. apply perm_swap.
Qed.

Lemma order_by_created_at_desc_perm (l : list Account) :
  Permutation (order_by_created_at_desc l) l.
Proof.
  induction l as [|a l IH]; cbn; [reflexivity|].
  rewrite insert_desc_perm. now constructor.
Qed.

Lemma insert_desc_sorted (a : Account) (l : list Account) :
  StronglySorted newest_first l -> StronglySorted newest_first (insert_desc a l).
Proof.
  induction l as [|b l IH]; cbn; intros Hs.
  - constructor; constructor.
  - apply StronglySorted_inv in Hs. destruct Hs as [Hl Hb].
    destruct (Z.ltb_spec (created_at b) (created_at a)) as [Hlt | Hge].
    + constructor; [constructor; assumption|].
      constructor; [unfold newest_first; lia|].
      apply Forall_forall. intros x Hx.
      pose proof (proj1 (Forall_forall _ _) Hb x Hx) as Hbx.
      unfold newest_first in *. lia.
    + constructor; [apply IH, Hl|].
      apply Forall_forall. intros x Hx.
      apply (Permutation_in _ (insert_desc_perm a l)) in Hx.
      destruct Hx as [<- | Hx]; [exact Hge|].
      exact (proj1 (Forall_forall _ _) Hb x Hx).
Qed.

Lemma order_by_created_at_desc_sorted (l : list Account) :
  StronglySorted newest_first (order_by_created_at_desc l).
Proof.
  induction l as [|a l IH]; cbn; [constructor|].
  apply insert_desc_sorted, IH.
Qed.





Lemma firstn_plus {A} (n m : nat) (l : list A) :
  firstn (n + m) l = (firstn n l ++ firstn m (skipn n l))%list.
Proof.
  revert l. induction n as [|n IH]; intros l; [reflexivity|].
  destruct l as [|a l]; cbn.
  - rewrite firstn_nil. reflexivity.
  - rewrite IH. reflexivity.
Qed.

Lemma skipn_plus {A} (n m : nat) (l : list A) :
  skipn (n + m) l = skipn m (skipn n l).
Proof.
  revert l. induction n as [|n IH]; intros l; [reflexivity|].
  destruct l as [|a l]; cbn.
  - rewrite skipn_nil. reflexivity.
  - apply IH.
Qed.

Lemma pagination_bounds (query : Query) :
  1 <= page_of query /\ 1 <= limit_of query <= 100 /\ 0 <= offset_of query.
Proof.
  assert (Hp : 1 <= page_of query) by (unfold page_of; lia).
  assert (Hl : 1 <= limit_of query <= 100) by (unfold limit_of; lia).
  repeat split; try lia. unfold offset_of. nia.
Qed.

(** X19: the page arithmetic of [listUsers].  The page is the parsed
    parameter when it is at least 1 and 1 otherwise; the limit is the
    parsed parameter when it lies in 1..100, 50 when it is absent, not a
    number or 0, 1 when it is negative and 100 when it is larger; so the
    page is at least 1, the limit lies in 1..100 and the offset is never
    negative. *)
Theorem pagination_is_clamped (query : Query) :
  page_of query
  = match q_page query with
    | Some p => if 1 <=? p then p else 1
    | None => 1
    end
  /\ limit_of query
     = match q_limit query with
       | Some l => if l =? 0 then 50
                   else if l <? 1 then 1
                   else if 100 <? l then 100
                   else l
       | None => 50
       end
  /\ 1 <= page_of query
  /\ 1 <= limit_of query <= 100
  /\ 0 <= offset_of query.
Proof.
  destruct (pagination_bounds query) as (Hp & Hl & Ho).
  split; [|split; [|split; [exact Hp | split; [exact Hl | exact Ho]]]].
  - unfold page_of, parsed_or. destruct (q_page query) as [p|]; [|reflexivity].
    destruct (Z.eqb_spec p 0), (Z.leb_spec 1 p); lia.
  - unfold limit_of, parsed_or. destruct (q_limit query) as [l|]; [|reflexivity].
    destruct (Z.eqb_spec l 0), (Z.ltb_spec l 1), (Z.ltb_spec 100 l); lia.
Qed.




Lemma NoDup_map_inj {A B} (f : A -> B) (l : list A) (x y : A) :
  NoDup (map f l) -> In x l -> In y l -> f x = f y -> x = y.
Proof.
  induction l as [|a l IH]; cbn; intros Hnd Hx Hy Hxy; [destruct Hx|].
  apply NoDup_cons_iff in Hnd. destruct Hnd as [Hna Hnd].
  destruct Hx as [-> | Hx], Hy as [-> | Hy].
  - reflexivity.
  - exfalso. apply Hna. rewrite Hxy. apply in_map. exact Hy.
  - exfalso. apply Hna. rewrite <- Hxy. apply in_map. exact Hx.
  - apply IH; assumption.
Qed.

(** [ORDER BY created_at DESC] leaves one order only when no two rows
    share their [created_at]: two listings of the same rows, both newest
    first, are then the same listing. *)
Lemma newest_first_unique (r l : list Account) :
  NoDup (map created_at r) ->
  Permutation r l ->
  StronglySorted newest_first r ->
  StronglySorted newest_first l ->
  r = l.
Proof.
  revert l. induction r as [|x r IH]; intros l Hnd Hp Hr Hl.
  - apply Permutation_nil in Hp. subst l. reflexivity.
  - destruct l as [|y l];
      [apply Permutation_sym, Permutation_nil in Hp; discriminate|].
    apply StronglySorted_inv in Hr. destruct Hr as [Hr Hx].
    apply StronglySorted_inv in Hl. destruct Hl as [Hl Hy].
    assert (Hyin : In y (x :: r))
      by (apply (Permutation_in _ (Permutation_sym Hp)); now left).
    assert (Hxin : In x (y :: l)) by (apply (Permutation_in _ Hp); now left).
    assert (Hkey : created_at x = created_at y).
    { apply Z.le_antisymm.
      - destruct Hxin as [<- | Hxin]; [lia|].
        exact (proj1 (Forall_forall _ _) Hy x Hxin).
      - destruct Hyin as [<- | Hyin]; [lia|].
        exact (proj1 (Forall_forall _ _) Hx y Hyin). }
    assert (Hxy : x = y)
      by (apply (NoDup_map_inj created_at (x :: r)); auto; now left).
    subst y. f_equal. apply IH.
    + cbn in Hnd. apply NoDup_cons_iff in Hnd. tauto.
    + exact (Permutation_cons_inv Hp).
    + exact Hr.
    + exact Hl.
Qed.

(** X21: consecutive pages tile the listing.  Take two queries with the
    same filters and limit, the second asking for the page after the
    first, and a table in which no two rows that match the filters share
    their [created_at], so that [ORDER BY created_at DESC] leaves one
    order only.  Then, in whatever order the store holds the rows, the two
    pages, one after the other, are the first [2 * limit] rows from the
    first page's offset of the matching rows listed newest first: no row
    is skipped and none is listed twice. *)
Theorem consecutive_pages_tile (q1 q2 : Query) (s : St) (listing : list Account) :
  q_role q2 = q_role q1 ->
  q_status q2 = q_status q1 ->
  q_verified q2 = q_verified q1 ->
  limit_of q2 = limit_of q1 ->
  page_of q2 = page_of q1 + 1 ->
  NoDup (map created_at (filter (where_clause q1) (accounts (db s)))) ->
  Permutation listing (filter (where_clause q1) (accounts (db s))) ->
  StronglySorted newest_first listing ->
  (select_users q1 (limit_of q1) (offset_of q1) (db s)
   ++ select_users q2 (limit_of q2) (offset_of q2) (db s))%list
  = firstn (Z.to_nat (2 * limit_of q1))
           (skipn (Z.to_nat (offset_of q1)) listing).
Proof.
  intros Hr Hst Hv Hl Hp Hnd Hperm Hsorted.
  destruct (pagination_bounds q1) as (Hp1 & Hl1 & Ho1).
  assert (Hlisting : listing
                     = order_by_created_at_desc
                         (filter (where_clause q1) (accounts (db s)))).
  { apply newest_first_unique.
    - apply (Permutation_NoDup (l := map created_at
                                       (filter (where_clause q1) (accounts (db s)))));
        [|exact Hnd].
      apply Permutation_map, Permutation_sym, Hperm.
    - rewrite Hperm. symmetry. apply order_by_created_at_desc_perm.
    - exact Hsorted.
    - apply order_by_created_at_desc_sorted. }
  rewrite Hlisting.
  unfold select_users.
  rewrite (filter_ext (where_clause q2) (where_clause q1))
    by (intros a; unfold where_clause; rewrite Hr, Hst, Hv; reflexivity).
  rewrite Hl.
  replace (Z.to_nat (offset_of q2))
    with (Z.to_nat (offset_of q1) + Z.to_nat (limit_of q1))%nat
    by (unfold offset_of; rewrite Hp, Hl; nia).
  replace (Z.to_nat (2 * limit_of q1))
    with (Z.to_nat (limit_of q1) + Z.to_nat (limit_of q1))%nat by lia.
  rewrite skipn_plus, firstn_plus. reflexivity.
Qed.

Lemma consecutive_pages_tile_witness :
  (select_users (mkQuery (Some 1) (Some 1) None None None)
                (limit_of (mkQuery (Some 1) (Some 1) None None None))
                (offset_of (mkQuery (Some 1) (Some 1) None None None))
                (db Example.world)
   ++ select_users (mkQuery (Some 2) (Some 1) None None None)
                   (limit_of (mkQuery (Some 2) (Some 1) None None None))
                   (offset_of (mkQuery (Some 2) (Some 1) None None None))
                   (db Example.world))%list
  = [Example.carol; Example.olga].
Proof.
  rewrite (consecutive_pages_tile (mkQuery (Some 1) (Some 1) None None None)
                                  (mkQuery (Some 2) (Some 1) None None None)
                                  Example.world
                                  [Example.carol; Example.olga; Example.alice]);
    try reflexivity.
  - repeat constructor; cbn; intuition discriminate.
  - exact (Permutation_rev [Example.carol; Example.olga; Example.alice]).
  - repeat constructor; unfold newest_first; cbn; lia.
Defined.

(** X22: the reading controllers never write.  Whatever the request and
    whatever the store does, [getUserById] and [listUsers] leave the
    committed tables, the open transaction and the sequence as they were.
    When the store answers, [getUserById] answers 404 exactly for an
    identifier no row has, provided the key column can hold the
    identifier; for one it cannot hold, the read fails and the answer is
    500 "Failed to retrieve user". *)
Theorem reading_controllers_never_write
        (request : Request) (query : Query) (s : St) :
  db (snd (getUserById request s)) = db s
  /\ txn (snd (getUserById request s)) = txn s
  /\ seq (snd (getUserById request s)) = seq s
  /\ db (snd (listUsers query s)) = db s
  /\ txn (snd (listUsers query s)) = txn s
  /\ seq (snd (listUsers query s)) = seq s
  /\ (answers s ->
      pg_int4 (params_id request) = true ->
      (fst (getUserById request s) = Ok (fail_json 404 "User not found")
       <-> target request s = None))
  /\ (answers s ->
      pg_int4 (params_id request) = false ->
      fst (getUserById request s) = Ok (fail_json 500 "Failed to retrieve user")).
Proof.
  assert (Hg : db (snd (getUserById request s)) = db s
               /\ txn (snd (getUserById request s)) = txn s
               /\ seq (snd (getUserById request s)) = seq s).
  { unfold getUserById, try_catch, pool_read_by_id, int_param, bind, round_trip,
      get, throw, ret.
    destruct s as [d t q n f l]. cbn.
    destruct f as [|[] fs]; cbn;
      repeat match goal with
             | |- context [if ?b then _ else _] => destruct b; cbn
             end; repeat split. }
  assert (Hl : db (snd (listUsers query s)) = db s
               /\ txn (snd (listUsers query s)) = txn s
               /\ seq (snd (listUsers query s)) = seq s).
  { unfold listUsers, try_catch, pool_read, bind, round_trip, get, ret.
    destruct s as [d t q n f l]. cbn.
    destruct f as [|[] [|[] fs]]; cbn; repeat split. }
  destruct Hg as (Hg1 & Hg2 & Hg3), Hl as (Hl1 & Hl2 & Hl3).
  split; [exact Hg1|]. split; [exact Hg2|]. split; [exact Hg3|].
  split; [exact Hl1|]. split; [exact Hl2|]. split; [exact Hl3|].
  split; [intros Hs Hrng; split | intros Hs Hrng].
  - intros Hr. destruct (target request s) as [a|] eqn:Ht; [|reflexivity].
    rewrite (getUserById_found _ _ _ Hs Ht) in Hr. discriminate.
  - intros Ht. rewrite (target_in_range _ _ Hrng) in Ht.
    unfold getUserById, try_catch, bind.
    rewrite (pool_read_by_id_ok _ _ s Hs Hrng). unfold select_account.
    rewrite (filter_of_find_none _ _ Ht). reflexivity.
  - unfold getUserById, try_catch, bind.
    rewrite (pool_read_by_id_refused _ _ s Hs Hrng). reflexivity.
Qed.

(* ================================================================== *)
(** ** Instances of the general lemmas *)
(* ================================================================== *)

Lemma canManageRole_rejects_truthy_invalid_witness :
  AdminAuth.canManageRole (Samples.admin_on 3 (Example.with_role (JNum (5 # 2))))
                          Example.world
  = (Ok (Respond (fail_json 400
           "Invalid role value. Role must be an integer between 1 and 5")),
     Example.world).
Proof.
  apply (canManageRole_rejects_truthy_invalid
           (Samples.admin_on 3 (Example.with_role (JNum (5 # 2))))
           Samples.as_admin Example.world);
    first [reflexivity | left; reflexivity].
Defined.

Lemma pipeline_with_ceiling_in_order_witness :
  fst (run_middlewares AdminAuthTarget.requireAdminForUserModification
         (Example.on_target 2 (Example.with_role (JNum (inject_Z 9)))) Example.world)
  = Ok (Respond (fail_json 403 "Cannot modify user with higher role than yours")).
Proof.
  rewrite (pipeline_with_ceiling_in_order
             (Example.on_target 2 (Example.with_role (JNum (inject_Z 9))))
             Example.as_alice Example.olga Example.world); reflexivity.
Defined.

Lemma createUser_conflict_witness :
  fst (createUser Example.hasher (Samples.admin_on 0 Conflict.second_alice)
                  Example.world)
  = Ok (fail_json 409 "Username or email already exists")
  /\ db (snd (createUser Example.hasher (Samples.admin_on 0 Conflict.second_alice)
                         Example.world))
     = db Example.world.
Proof.
  apply (createUser_conflict Example.hasher
           (Samples.admin_on 0 Conflict.second_alice) Example.world Example.alice);
    first [reflexivity | left; reflexivity].
Defined.
